(** * tmc-scraper: a shallow embedding of [src/scrape.py]

    The scraper turns traffic-movement-count documents (old HTML pages,
    recent spreadsheets and PDF text) into one flat record per document.
    This development embeds the record assembly of the three adapters, the
    period detection loops, the field locators, the east/west vehicle
    volume heuristic of the PDF adapter and the choice of the attachment
    link, and states the properties of the specification over them.

    Conventions.
    - Python values are [pyval]; a [dict] with string keys is a
      [gmap string pyval]; Python exceptions are the [Raise] case of
      [result].
    - Text is ASCII: [string] is a sequence of bytes, and the helpers of
      [PyStr] implement the [str] methods the scraper calls on such text.
    - The parsed document is seen through the queries the scraper makes on
      it: a [Soup] holds what each CSS selection returns, a [PdfText] what
      each regular-expression scan returns, a worksheet what each cell
      holds.  [pandas.to_datetime] on a string is a variable of the
      development. *)

From Stdlib Require Import ZArith List Ascii String Lia Bool.
From stdpp Require Import base tactics option list gmap strings pretty fin_maps.

Local Open Scope Z_scope.

(** ** Exceptions and results *)

Inductive exn : Type :=
| IndexError
| ValueError
| TypeError
| KeyError
| AttributeError
| ParserError.

Inductive result (A : Type) : Type :=
| Ok (a : A)
| Raise (e : exn).

Arguments Ok {A} a.
Arguments Raise {A} e.

#[global] Instance result_ret : MRet result := fun A a => Ok a.
#[global] Instance result_bind : MBind result := fun A B f r =>
  match r with
  | Ok a => f a
  | Raise e => Raise e
  end.

(** ** Python values *)

(** A pandas Timestamp: [NaT], a point in time without a time zone, or a
    point in time with one; both in seconds. *)
Inductive timestamp : Type :=
| NaT
| At (seconds : Z)
| AtTz (seconds : Z).

Inductive pyval : Type :=
| PNone
| PBool (b : bool)
| PInt (z : Z)
| PStr (s : string)
| PTimestamp (t : timestamp)
| PObj (repr : string) (truth : bool).  (* any other object: its str() and truth value *)

#[global] Instance timestamp_eq_dec : EqDecision timestamp.
Proof. solve_decision. Defined.

#[global] Instance pyval_eq_dec : EqDecision pyval.
Proof. solve_decision. Defined.

(** Truth value of an object, as tested by [if x:] and by [and]. *)
Definition truthy (v : pyval) : bool :=
  match v with
  | PNone => false
  | PBool b => b
  | PInt z => negb (z =? 0)
  | PStr s => negb (String.eqb s "")
  | PTimestamp _ => true
  | PObj _ t => t
  end.

(** [x and y] *)
Definition py_and (x y : pyval) : pyval := if truthy x then y else x.

(** [l[i]] on a list, for a possibly negative index. *)
Definition py_index {A} (l : list A) (i : Z) : result A :=
  let n := Z.of_nat (length l) in
  let j := if i <? 0 then i + n else i in
  if (0 <=? j) && (j <? n) then
    match l !! Z.to_nat j with
    | Some x => Ok x
    | None => Raise IndexError
    end
  else Raise IndexError.

(** [max(l)] on a list of integers; raises on the empty list. *)
Definition py_max (l : list Z) : result Z :=
  match l with
  | [] => Raise ValueError
  | x :: l' => Ok (fold_left Z.max l' x)
  end.

(** ** [str] methods on ASCII text *)

Module PyStr.

Definition is_space (c : ascii) : bool :=
  let n := nat_of_ascii c in
  ((9 <=? n) && (n <=? 13) || (28 <=? n) && (n <=? 32))%nat.

Definition is_digit (c : ascii) : bool :=
  let n := nat_of_ascii c in ((48 <=? n) && (n <=? 57))%nat.

Definition digit_val (c : ascii) : Z := Z.of_nat (nat_of_ascii c) - 48.

Fixpoint take (n : nat) (s : string) : string :=
  match n, s with
  | S n', String c s' => String c (take n' s')
  | _, _ => EmptyString
  end.

Fixpoint drop (n : nat) (s : string) : string :=
  match n, s with
  | S n', String c s' => drop n' s'
  | _, _ => s
  end.

(** [s[:-n]] and [s[-n:]] for [n > 0] *)
Definition drop_last (n : nat) (s : string) : string :=
  take (String.length s - n) s.
Definition take_last (n : nat) (s : string) : string :=
  drop (String.length s - n) s.

Fixpoint repeat_char (n : nat) (c : ascii) : string :=
  match n with
  | O => EmptyString
  | S n' => String c (repeat_char n' c)
  end.

(** [s.rjust(w, c)] *)
Definition rjust (w : nat) (c : ascii) (s : string) : string :=
  repeat_char (w - String.length s) c +:+ s.

Definition lower_char (c : ascii) : ascii :=
  let n := nat_of_ascii c in
  if ((65 <=? n) && (n <=? 90))%nat then ascii_of_nat (n + 32) else c.

(** [s.lower()] *)
Fixpoint lower (s : string) : string :=
  match s with
  | EmptyString => EmptyString
  | String c s' => String (lower_char c) (lower s')
  end.

Definition snoc (s : string) (c : ascii) : string := s +:+ String c EmptyString.

(** [s.split()]: the maximal runs of non-blank characters. *)
Fixpoint split_go (acc : string) (s : string) : list string :=
  match s with
  | EmptyString => match acc with EmptyString => [] | _ => [acc] end
  | String c s' =>
      if is_space c then
        match acc with
        | EmptyString => split_go EmptyString s'
        | _ => acc :: split_go EmptyString s'
        end
      else split_go (snoc acc c) s'
  end.
Definition split (s : string) : list string := split_go EmptyString s.

Fixpoint lstrip (s : string) : string :=
  match s with
  | String c s' => if is_space c then lstrip s' else s
  | EmptyString => EmptyString
  end.

(** [s.strip()] *)
Definition strip (s : string) : string :=
  String.rev (lstrip (String.rev (lstrip s))).

(** [s.replace(old, new)] for a non-empty [old]: occurrences are replaced
    from the left and do not overlap. *)
Fixpoint replace_go (fuel : nat) (old new s : string) : string :=
  match fuel with
  | O => s
  | S fuel' =>
      if String.prefix old s then
        new +:+ replace_go fuel' old new (drop (String.length old) s)
      else
        match s with
        | EmptyString => EmptyString
        | String c s' => String c (replace_go fuel' old new s')
        end
  end.
Definition replace (old new s : string) : string :=
  replace_go (S (String.length s)) old new s.

(** [re.findall(r'\d+', s)]: the maximal runs of digits, left to right. *)
Fixpoint findall_digits_go (acc : string) (s : string) : list string :=
  match s with
  | EmptyString => match acc with EmptyString => [] | _ => [acc] end
  | String c s' =>
      if is_digit c then findall_digits_go (snoc acc c) s'
      else
        match acc with
        | EmptyString => findall_digits_go EmptyString s'
        | _ => acc :: findall_digits_go EmptyString s'
        end
  end.
Definition findall_digits (s : string) : list string :=
  findall_digits_go EmptyString s.

(** Digits of an integer literal, with single underscores between digits. *)
Fixpoint digits_go (acc : Z) (after_digit : bool) (s : string) : option Z :=
  match s with
  | EmptyString => if after_digit then Some acc else None
  | String c s' =>
      if is_digit c then digits_go (10 * acc + digit_val c) true s'
      else if Ascii.eqb c "_"%char && after_digit then digits_go acc false s'
      else None
  end.

(** The blanks [int()] skips around a literal: tab to carriage return, and
    the space.  The separators 28 to 31, which [str.strip()] removes, are
    not among them. *)
Definition is_int_space (c : ascii) : bool :=
  let n := nat_of_ascii c in
  ((9 <=? n) && (n <=? 13) || (n =? 32))%nat.

Fixpoint int_lstrip (s : string) : string :=
  match s with
  | String c s' => if is_int_space c then int_lstrip s' else s
  | EmptyString => EmptyString
  end.

Definition int_strip (s : string) : string :=
  String.rev (int_lstrip (String.rev (int_lstrip s))).

Fixpoint count_digits (s : string) : Z :=
  match s with
  | EmptyString => 0
  | String c s' => (if is_digit c then 1 else 0) + count_digits s'
  end.

(** [sys.get_int_max_str_digits()], as CPython 3.11 sets it. *)
Definition int_max_str_digits : Z := 4300.

(** [int(s)]: blanks around, an optional sign, decimal digits; a literal of
    more than [int_max_str_digits] digits is refused. *)
Definition to_int (s : string) : result Z :=
  let t := int_strip s in
  let '(neg, body) :=
    match t with
    | String c r =>
        if Ascii.eqb c "-"%char then (true, r)
        else if Ascii.eqb c "+"%char then (false, r)
        else (false, t)
    | EmptyString => (false, t)
    end in
  match digits_go 0 false body with
  | Some n =>
      if count_digits body <=? int_max_str_digits
      then Ok (if neg then - n else n)
      else Raise ValueError
  | None => Raise ValueError
  end.

End PyStr.

(** A text or [None], as a value. *)
Definition of_text (t : option string) : pyval :=
  match t with Some s => PStr s | None => PNone end.

(** ** Dictionaries *)

(** [d.get(k)], with [None] for a missing key. *)
Definition dict_get (d : gmap string pyval) (k : string) : pyval :=
  default PNone (d !! k).

(** [d.update({k1: v1, ...})]: the pairs are stored from left to right. *)
Definition dict_update (d : gmap string pyval) (kvs : list (string * pyval))
  : gmap string pyval :=
  fold_left (fun acc kv => <[kv.1 := kv.2]> acc) kvs d.

(** ** Period labels and the bookkeeping of one document *)

Inductive label : Type := AM | MD | PM.

#[global] Instance label_eq_dec : EqDecision label.
Proof. solve_decision. Defined.

Definition tag (l : label) : string :=
  match l with AM => "AM" | MD => "MD" | PM => "PM" end.

(** One entry of [control_dict]. *)
Record ctl : Type := { check : pyval; table_key : option Z }.

(** [control_dict] has the keys ['AM'], ['MD'] and ['PM'] from its literal
    on and no other; [available_am], [available_md] and [available_pm] are
    the three local flags. *)
Record detection : Type := {
  ctl_AM : ctl;
  ctl_MD : ctl;
  ctl_PM : ctl;
  available_am : bool;
  available_md : bool;
  available_pm : bool
}.

Definition detection_init : detection :=
  {| ctl_AM := {| check := PNone; table_key := None |};
     ctl_MD := {| check := PNone; table_key := None |};
     ctl_PM := {| check := PNone; table_key := None |};
     available_am := false; available_md := false; available_pm := false |}.

Definition ctl_of (l : label) (st : detection) : ctl :=
  match l with AM => ctl_AM st | MD => ctl_MD st | PM => ctl_PM st end.

Definition available (l : label) (st : detection) : bool :=
  match l with
  | AM => available_am st | MD => available_md st | PM => available_pm st
  end.

Definition set_table_key (i : Z) (c : ctl) : ctl :=
  {| check := check c; table_key := Some i |}.

Definition set_check (v : pyval) (c : ctl) : ctl :=
  {| check := v; table_key := table_key c |}.

(** [control_dict[l]['table_key'] = i; available_l = True] *)
Definition mark (l : label) (i : Z) (st : detection) : detection :=
  match l with
  | AM => {| ctl_AM := set_table_key i (ctl_AM st); ctl_MD := ctl_MD st;
             ctl_PM := ctl_PM st; available_am := true;
             available_md := available_md st; available_pm := available_pm st |}
  | MD => {| ctl_AM := ctl_AM st; ctl_MD := set_table_key i (ctl_MD st);
             ctl_PM := ctl_PM st; available_am := available_am st;
             available_md := true; available_pm := available_pm st |}
  | PM => {| ctl_AM := ctl_AM st; ctl_MD := ctl_MD st;
             ctl_PM := set_table_key i (ctl_PM st);
             available_am := available_am st;
             available_md := available_md st; available_pm := true |}
  end.

(** The branches on the start hour of a peak window, as written in
    [OldTMCScraper._scrape_tmc] and in [RecentTMCScraper._read_pdf]:
    [None] is the [else: continue] branch. *)
Definition classify (peak_start_hr : Z) : option label :=
  if (6 <=? peak_start_hr) && (peak_start_hr <=? 8) then Some AM
  else if (9 <=? peak_start_hr) && (peak_start_hr <=? 15) then Some MD
  else if (16 <=? peak_start_hr) && (peak_start_hr <=? 19) then Some PM
  else None.

(** Body of the detection loop of the HTML and PDF adapters for the
    candidate [i] whose peak hour text is [period] ([None] when there is
    none): [if period:] holds for a non-empty text. *)
Definition detect_step (i : Z) (period : option string) (st : detection)
  : result detection :=
  match period with
  | Some p =>
      if truthy (PStr p) then
        peak_start_hr ← PyStr.to_int (PyStr.take 2 p);
        Ok (match classify peak_start_hr with
            | Some l => mark l i st
            | None => st
            end)
      else Ok st
  | None => Ok st
  end.

(** ** WebScraper: the period filters *)

Record WebScraper : Type := {
  filter_options : gmap string pyval;
  collect_am : pyval;
  collect_pm : pyval;
  collect_md : pyval
}.

Definition collect (l : label) (self : WebScraper) : pyval :=
  match l with
  | AM => collect_am self | MD => collect_md self | PM => collect_pm self
  end.

Definition default_filter_options : gmap string pyval :=
  <["AM" := PBool true]> (<["PM" := PBool true]> (<["MD" := PBool true]> ∅)).

Definition _set_filters (options : gmap string pyval)
  (period_filters : list string) : gmap string pyval :=
  fold_left
    (fun opts filter_key =>
       if decide (is_Some (opts !! filter_key))
       then <[filter_key := PBool true]> opts
       else opts)
    period_filters options.

Definition _apply_filters (options : gmap string pyval) : WebScraper :=
  {| filter_options := options;
     collect_am := dict_get options "AM";
     collect_pm := dict_get options "PM";
     collect_md := dict_get options "MD" |}.

(** [WebScraper.__init__(period_filters)]; [None] is the default of the
    argument, and an empty list is as false as [None]. *)
Definition WebScraper_init (period_filters : option (list string)) : WebScraper :=
  let options :=
    match period_filters with
    | Some (k :: ks) => _set_filters default_filter_options (k :: ks)
    | _ => default_filter_options
    end in
  _apply_filters options.

(** The six flags stored with the document-level fields of a record. *)
Definition flags_entries (self : WebScraper) (st : detection)
  : list (string * pyval) :=
  [ ("AM_available", PBool (available_am st));
    ("AM_scraped", collect_am self);
    ("MD_available", PBool (available_md st));
    ("MD_scraped", collect_md self);
    ("PM_available", PBool (available_pm st));
    ("PM_scraped", collect_pm self) ].

(** The three assignments to [control_dict[...]['check']]. *)
Definition set_checks (self : WebScraper) (st : detection) : detection :=
  {| ctl_AM := set_check (py_and (collect_am self) (PBool (available_am st))) (ctl_AM st);
     ctl_MD := set_check (py_and (collect_md self) (PBool (available_md st))) (ctl_MD st);
     ctl_PM := set_check (py_and (collect_pm self) (PBool (available_pm st))) (ctl_PM st);
     available_am := available_am st;
     available_md := available_md st;
     available_pm := available_pm st |}.

(** The loop [for key, value in control_dict.items()], in the order of the
    literal: [block l position] evaluates the dictionary literal of the
    period fields, and the record is updated with it. *)
Fixpoint collect_periods (block : label -> option Z -> result (list (string * pyval)))
  (st : detection) (ls : list label) (tmc : gmap string pyval)
  : result (gmap string pyval) :=
  match ls with
  | [] => Ok tmc
  | l :: ls' =>
      if truthy (check (ctl_of l st)) then
        kvs ← block l (table_key (ctl_of l st));
        collect_periods block st ls' (dict_update tmc kvs)
      else collect_periods block st ls' tmc
  end.

(** [try: ... except Exception: return None] *)
Definition catch {A} (r : result A) : option A :=
  match r with Ok a => Some a | Raise _ => None end.

(** ** OldTMCScraper: the HTML adapter *)

Module OldTMCScraper.

(** What the selections of the scraper return on one parsed page.  A field
    named after a locator holds the texts of the elements its selector
    matches, in document order; where the selector depends on the table
    key, so does the field. *)
Record Soup : Type := {
  date_p : option string;          (* th[valign='TOP']:nth-of-type(3) p *)
  weather_p : list string;         (* th:nth-of-type(13) p *)
  type_p : option string;          (* th:nth-of-type(8) p *)
  peak_hour_p : Z -> option string;
  north_bikes_tr : Z -> list string;
  north_peds_th : Z -> list string;
  north_veh_th : Z -> list string; (* str(e) of each element, not its text *)
  bikes_th : list string;          (* east and west bikes share a selector *)
  peds_th : list string;           (* east and west peds share a selector *)
  east_veh_th : list string;
  south_bikes_tr : list string;
  south_peds_th : list string;
  south_veh_th : Z -> list string; (* tr:nth-of-type(5*key-6) ... *)
  west_veh_th : list string
}.

Section Locators.

Variable to_datetime : string -> result timestamp.

(** [pd.to_datetime(arg)]: [None] is returned as it is. *)
Definition pd_to_datetime (arg : option string) : result pyval :=
  match arg with
  | None => Ok PNone
  | Some s => t ← to_datetime s; Ok (PTimestamp t)
  end.

Definition _get_date (soup : Soup) : result pyval :=
  pd_to_datetime (date_p soup).

Definition _get_weather (soup : Soup) : result pyval :=
  match weather_p soup with
  | [] => Ok PNone
  | e :: _ => w ← py_index (PyStr.split e) (-1); Ok (PStr (PyStr.lower w))
  end.

Definition _get_type (soup : Soup) : result pyval :=
  match type_p soup with
  | Some t => Ok (PStr t)
  | None => Ok PNone
  end.

Definition _get_peak_hour (soup : Soup) (key : Z) : option string :=
  match peak_hour_p soup key with
  | Some t => Some (PyStr.replace "Maximum Hour " "" t)
  | None => None
  end.

(** [re.findall(r'\d+', text)[i]] *)
Definition digits_at (text : string) (i : Z) : result pyval :=
  d ← py_index (PyStr.findall_digits text) i; Ok (PStr d).

Definition _get_north_bikes_vol (soup : Soup) (key : Z) : result pyval :=
  match north_bikes_tr soup key with
  | [] => Ok PNone
  | e :: _ => digits_at e 0
  end.

Definition _get_north_peds_vol (soup : Soup) (key : Z) : result pyval :=
  match north_peds_th soup key with
  | [] => Ok PNone
  | e :: _ => digits_at e (-1)
  end.

Definition _get_north_veh_vol (soup : Soup) (key : Z) : result pyval :=
  let nums := PyStr.findall_digits (String.concat "" (north_veh_th soup key)) in
  if 2 <? Z.of_nat (length nums) then d ← py_index nums 2; Ok (PStr d)
  else Ok PNone.

(** [elements[i]] guarded by [elements and 0 <= i < len(elements)] *)
Definition guarded_digits (elements : list string) (i : Z) : result pyval :=
  match elements with
  | [] => Ok PNone
  | _ =>
      if (0 <=? i) && (i <? Z.of_nat (length elements)) then
        e ← py_index elements i; digits_at e 0
      else Ok PNone
  end.

(** [elements[i]] guarded by [elements] alone *)
Definition unguarded_digits (elements : list string) (i : Z) : result pyval :=
  match elements with
  | [] => Ok PNone
  | _ => e ← py_index elements i; digits_at e 0
  end.

Definition _get_east_bikes_vol (soup : Soup) (key : Z) : result pyval :=
  guarded_digits (bikes_th soup) (2 * key - 3).

Definition _get_east_peds_vol (soup : Soup) (key : Z) : result pyval :=
  guarded_digits (peds_th soup) (2 * key - 3).

Definition _get_east_veh_vol (soup : Soup) (key : Z) : result pyval :=
  unguarded_digits (east_veh_th soup) (key - 2).

Definition _get_south_bikes_vol (soup : Soup) (key : Z) : result pyval :=
  guarded_digits (south_bikes_tr soup) (key - 2).

Definition _get_south_peds_vol (soup : Soup) (key : Z) : result pyval :=
  guarded_digits (south_peds_th soup) (key - 2).

Definition _get_south_veh_vol (soup : Soup) (key : Z) : result pyval :=
  unguarded_digits (south_veh_th soup key) (-1).

Definition _get_west_bikes_vol (soup : Soup) (key : Z) : result pyval :=
  guarded_digits (bikes_th soup) (2 * key - 4).

Definition _get_west_peds_vol (soup : Soup) (key : Z) : result pyval :=
  guarded_digits (peds_th soup) (2 * key - 4).

Definition _get_west_veh_vol (soup : Soup) (key : Z) : result pyval :=
  unguarded_digits (west_veh_th soup) (key - 2).

(** The dictionary literal of the period fields; a position of [None]
    cannot be formatted into a selector. *)
Definition period_block (soup : Soup) (l : label) (position : option Z)
  : result (list (string * pyval)) :=
  match position with
  | None => Raise TypeError
  | Some key =>
      north_bikes ← _get_north_bikes_vol soup key;
      north_peds ← _get_north_peds_vol soup key;
      north_veh ← _get_north_veh_vol soup key;
      east_bikes ← _get_east_bikes_vol soup key;
      east_peds ← _get_east_peds_vol soup key;
      east_veh ← _get_east_veh_vol soup key;
      south_bikes ← _get_south_bikes_vol soup key;
      south_peds ← _get_south_peds_vol soup key;
      south_veh ← _get_south_veh_vol soup key;
      west_bikes ← _get_west_bikes_vol soup key;
      west_peds ← _get_west_peds_vol soup key;
      west_veh ← _get_west_veh_vol soup key;
      Ok [ (tag l +:+ "_peak_hour", of_text (_get_peak_hour soup key));
           (tag l +:+ "_north_bikes_vol", north_bikes);
           (tag l +:+ "_north_peds_vol", north_peds);
           (tag l +:+ "_north_veh_vol", north_veh);
           (tag l +:+ "_east_bikes_vol", east_bikes);
           (tag l +:+ "_east_peds_vol", east_peds);
           (tag l +:+ "_east_veh_vol", east_veh);
           (tag l +:+ "_south_bikes_vol", south_bikes);
           (tag l +:+ "_south_peds_vol", south_peds);
           (tag l +:+ "_south_veh_vol", south_veh);
           (tag l +:+ "_west_bikes_vol", west_bikes);
           (tag l +:+ "_west_peds_vol", west_peds);
           (tag l +:+ "_west_veh_vol", west_veh) ]
  end.

(** The loop [for i in range(2, 5)]. *)
Fixpoint detect_loop (soup : Soup) (keys : list Z) (st : detection)
  : result detection :=
  match keys with
  | [] => Ok st
  | i :: keys' =>
      st' ← detect_step i (_get_peak_hour soup i) st;
      detect_loop soup keys' st'
  end.

Definition detect (soup : Soup) : result detection :=
  detect_loop soup [2; 3; 4] detection_init.

(** The body of the [try] of [_scrape_tmc], once the page is parsed. *)
Definition scrape_body (self : WebScraper) (soup : Soup)
  : result (gmap string pyval) :=
  st ← detect soup;
  let st := set_checks self st in
  date ← _get_date soup;
  weather ← _get_weather soup;
  type ← _get_type soup;
  let tmc :=
    dict_update ∅
      ([("date", date); ("weather", weather); ("type", type)]
         ++ flags_entries self st) in
  collect_periods (period_block soup) st [AM; MD; PM] tmc.

(** [_scrape_tmc]: the record, or [None] when anything raised. *)
Definition _scrape_tmc (self : WebScraper) (soup : Soup)
  : option (gmap string pyval) :=
  catch (scrape_body self soup).

End Locators.

End OldTMCScraper.

(** ** RecentTMCScraper: the spreadsheet and PDF adapters *)

Module RecentTMCScraper.

(** *** Worksheets *)

(** The value of a cell as openpyxl returns it: empty, a boolean, an
    integer, a text, or another object (a time, a date, a float) known by
    its [str()] and its truth value. *)
Inductive cell_value : Type :=
| CEmpty
| CBool (b : bool)
| CInt (z : Z)
| CStr (s : string)
| CObj (repr : string) (truth : bool).

Definition cell_py (v : cell_value) : pyval :=
  match v with
  | CEmpty => PNone
  | CBool b => PBool b
  | CInt z => PInt z
  | CStr s => PStr s
  | CObj r t => PObj r t
  end.

(** [str(v)] *)
Definition cell_str (v : cell_value) : string :=
  match v with
  | CEmpty => "None"
  | CBool b => if b then "True" else "False"
  | CInt z => pretty z
  | CStr s => s
  | CObj r _ => r
  end.

(** [ws[column + str(row)].value]; a cell never written is empty. *)
Definition cell (ws : gmap string cell_value) (column : string) (row : Z)
  : cell_value :=
  default CEmpty (ws !! (column +:+ pretty row)).

(** [element if element else None] *)
Definition value_or_none (element : cell_value) : pyval :=
  if truthy (cell_py element) then cell_py element else PNone.

Definition _xlsx_get_date (ws : gmap string cell_value) : pyval :=
  value_or_none (cell ws "N" 15).

Definition _xlsx_get_weather (ws : gmap string cell_value) : result pyval :=
  let element := cell ws "V" 8 in
  if truthy (cell_py element) then
    match element with
    | CStr s => Ok (PStr (PyStr.lower s))
    | _ => Raise AttributeError
    end
  else Ok PNone.

Definition _xlsx_get_type (ws : gmap string cell_value) : pyval := PNone.

Definition _xlsx_get_peak_hour (ws : gmap string cell_value) (key : Z)
  : option string :=
  let element_1 := cell ws "N" (key + 15) in
  let element_2 := cell ws "P" (key + 15) in
  if truthy (cell_py element_1) && truthy (cell_py element_2) then
    Some (PyStr.rjust 5 "0" (PyStr.drop_last 3 (cell_str element_1))
          +:+ " - "
          +:+ PyStr.rjust 5 "0" (PyStr.drop_last 3 (cell_str element_2)))
  else None.

Definition _xlsx_get_north_bikes_vol ws (key : Z) := value_or_none (cell ws "M" (key + 1)).
Definition _xlsx_get_north_peds_vol ws (key : Z) := value_or_none (cell ws "L" (key + 2)).
Definition _xlsx_get_north_veh_vol ws (key : Z) := value_or_none (cell ws "M" key).
Definition _xlsx_get_east_bikes_vol ws (key : Z) := value_or_none (cell ws "AA" (key + 12)).
Definition _xlsx_get_east_peds_vol ws (key : Z) := value_or_none (cell ws "Z" (key + 11)).
Definition _xlsx_get_east_veh_vol ws (key : Z) := value_or_none (cell ws "AB" (key + 12)).
Definition _xlsx_get_south_bikes_vol ws (key : Z) := value_or_none (cell ws "P" (key + 26)).
Definition _xlsx_get_south_peds_vol ws (key : Z) := value_or_none (cell ws "Q" (key + 25)).
Definition _xlsx_get_south_veh_vol ws (key : Z) := value_or_none (cell ws "P" (key + 27)).
Definition _xlsx_get_west_bikes_vol ws (key : Z) := value_or_none (cell ws "B" (key + 15)).
Definition _xlsx_get_west_peds_vol ws (key : Z) := value_or_none (cell ws "C" (key + 16)).
Definition _xlsx_get_west_veh_vol ws (key : Z) := value_or_none (cell ws "A" (key + 15)).

(** The dictionary literal of the period fields of [_read_xlsx]; a
    position of [None] cannot be added to an integer. *)
Definition xlsx_period_block (ws : gmap string cell_value) (l : label)
  (position : option Z) : result (list (string * pyval)) :=
  match position with
  | None => Raise TypeError
  | Some key =>
      Ok [ (tag l +:+ "_peak_hour", of_text (_xlsx_get_peak_hour ws key));
           (tag l +:+ "_north_bikes_vol", _xlsx_get_north_bikes_vol ws key);
           (tag l +:+ "_north_peds_vol", _xlsx_get_north_peds_vol ws key);
           (tag l +:+ "_north_veh_vol", _xlsx_get_north_veh_vol ws key);
           (tag l +:+ "_east_bikes_vol", _xlsx_get_east_bikes_vol ws key);
           (tag l +:+ "_east_peds_vol", _xlsx_get_east_peds_vol ws key);
           (tag l +:+ "_east_veh_vol", _xlsx_get_east_veh_vol ws key);
           (tag l +:+ "_south_bikes_vol", _xlsx_get_south_bikes_vol ws key);
           (tag l +:+ "_south_peds_vol", _xlsx_get_south_peds_vol ws key);
           (tag l +:+ "_south_veh_vol", _xlsx_get_south_veh_vol ws key);
           (tag l +:+ "_west_bikes_vol", _xlsx_get_west_bikes_vol ws key);
           (tag l +:+ "_west_peds_vol", _xlsx_get_west_peds_vol ws key);
           (tag l +:+ "_west_veh_vol", _xlsx_get_west_veh_vol ws key) ]
  end.

(** [(end - start).total_seconds() == 3600]; a difference with [NaT] is
    [NaT], whose [total_seconds()] is not a number, and a Timestamp with a
    time zone cannot be subtracted from one without. *)
Definition one_hour (t_end t_start : timestamp) : result bool :=
  match t_end, t_start with
  | At e, At s => Ok (e - s =? 3600)
  | AtTz e, AtTz s => Ok (e - s =? 3600)
  | At _, AtTz _ => Raise TypeError
  | AtTz _, At _ => Raise TypeError
  | NaT, _ => Ok false
  | _, NaT => Ok false
  end.

Section Xlsx.

Variable to_datetime : string -> result timestamp.

(** Body of the loop [for i in [32, 62, 92]]. *)
Definition xlsx_detect_step (ws : gmap string cell_value) (i : Z)
  (st : detection) : result detection :=
  match _xlsx_get_peak_hour ws i with
  | Some period =>
      if truthy (PStr period) then
        let peak_start := PyStr.take 6 period in
        let peak_end := PyStr.take_last 5 period in
        t_end ← to_datetime peak_end;
        t_start ← to_datetime peak_start;
        period_check ← one_hour t_end t_start;
        Ok (if (i =? 32) && period_check then mark AM i st
            else if (i =? 62) && period_check then mark MD i st
            else if (i =? 92) && period_check then mark PM i st
            else st)
      else Ok st
  | None => Ok st
  end.

Fixpoint xlsx_detect_loop (ws : gmap string cell_value) (keys : list Z)
  (st : detection) : result detection :=
  match keys with
  | [] => Ok st
  | i :: keys' =>
      st' ← xlsx_detect_step ws i st;
      xlsx_detect_loop ws keys' st'
  end.

Definition xlsx_detect (ws : gmap string cell_value) : result detection :=
  xlsx_detect_loop ws [32; 62; 92] detection_init.

(** The body of the [try] of [_read_xlsx], once the workbook is loaded. *)
Definition read_xlsx_body (self : WebScraper)
  (wb : gmap string (gmap string cell_value)) : result (gmap string pyval) :=
  match wb !! "Summary" with
  | None => Raise KeyError
  | Some ws =>
      st ← xlsx_detect ws;
      let st := set_checks self st in
      weather ← _xlsx_get_weather ws;
      let tmc :=
        dict_update ∅
          ([("date", _xlsx_get_date ws); ("weather", weather);
            ("type", _xlsx_get_type ws)] ++ flags_entries self st) in
      collect_periods (xlsx_period_block ws) st [AM; MD; PM] tmc
  end.

Definition _read_xlsx (self : WebScraper)
  (wb : gmap string (gmap string cell_value)) : option (gmap string pyval) :=
  catch (read_xlsx_body self wb).

End Xlsx.

(** *** PDF text *)

(** One element of [re.split(r"Maximum Hour", text)], seen through the
    scans made on it: [tagged_numbers] is
    [re.findall(r"(Bikes|Peds|PEDs)\s*(\d+)", section)], and [search_1],
    [search_2], [search_3] are [match.group(1)] for the three patterns of
    [_get_veh_vol], in their order, or [None] without a match. *)
Record Segment : Type := {
  tagged_numbers : list (string * string);
  search_1 : option string;
  search_2 : option string;
  search_3 : option string
}.

(** The text of the first page, seen through the scans made on it. *)
Record PdfText : Type := {
  maximum_hour : list string;   (* findall of the peak window pattern *)
  date_matches : list string;
  weather_matches : list string;
  type_matches : list string;
  split_maximum_hour : list Segment
}.

Definition _get_weather (text : PdfText) : pyval :=
  match weather_matches text with
  | [] => PNone
  | e :: _ => PStr (PyStr.lower (PyStr.strip e))
  end.

Definition _get_type (text : PdfText) : pyval :=
  match type_matches text with
  | [] => PNone
  | e :: _ => PStr e
  end.

Definition _get_peak_hour (text : PdfText) (key : Z) : result pyval :=
  match maximum_hour text with
  | [] => Ok PNone
  | elements => e ← py_index elements key; Ok (PStr e)
  end.

(** [numbers[:8]] *)
Definition first_eight (segment : Segment) : list string :=
  take 8 (map snd (tagged_numbers segment)).

Definition _get_peds_and_bikes_vol (text : PdfText) (key : Z)
  : result (option (list string)) :=
  let sections := tail (split_maximum_hour text) in
  match map first_eight sections with
  | [] => Ok None
  | elements => e ← py_index elements key; Ok (Some e)
  end.

Fixpoint map_result {A B} (f : A -> result B) (l : list A) : result (list B) :=
  match l with
  | [] => Ok []
  | x :: l' => y ← f x; ys ← map_result f l'; Ok (y :: ys)
  end.

(** [[int(num) for num in match.group(1).strip().split()]], or [[]]
    without a match. *)
Definition run_of (m : option string) : result (list Z) :=
  match m with
  | Some group_1 => map_result PyStr.to_int (PyStr.split (PyStr.strip group_1))
  | None => Ok []
  end.

Definition int_or_none (b : bool) (decision : Z) : pyval :=
  if b then PInt decision else PNone.

(** The branches on [results[1]]: what they store in [elements]. *)
Definition east_west (run : list Z) (elements : gmap string pyval)
  : result (gmap string pyval) :=
  match run with
  | [] => Ok elements
  | _ =>
      let n := Z.of_nat (length run) in
      if 4 <? n then
        last ← py_index run (-1);
        first ← py_index run 0;
        Ok (dict_update elements [("east", PInt last); ("west", PInt first)])
      else if n =? 4 then
        r0 ← py_index run 0;
        r1 ← py_index run 1;
        r2 ← py_index run 2;
        r3 ← py_index run 3;
        if (r0 =? r1) && (r2 =? r3) then
          last ← py_index run (-1);
          Ok (dict_update elements [("east", PInt last); ("west", PInt r0)])
        else
          decision ← py_max run;
          last ← py_index run (-1);
          Ok (dict_update elements
                [("east", int_or_none (decision =? last) decision);
                 ("west", int_or_none (decision =? r0) decision)])
      else if n =? 3 then
        decision ← py_max run;
        last ← py_index run (-1);
        first ← py_index run 0;
        Ok (dict_update elements
              [("east", int_or_none (decision =? last) decision);
               ("west", int_or_none (decision =? first) decision)])
      else if n =? 2 then
        Ok (dict_update elements
              [("east", PStr "manual_check"); ("west", PStr "manual_check")])
      else Ok elements
  end.

(** The last update of [elements]: north and south. *)
Definition north_south (run_1 run_3 : list Z) (elements : gmap string pyval)
  : result (gmap string pyval) :=
  north ← match run_1 with
          | [] => Ok PNone
          | _ => x ← py_index run_1 0; Ok (PInt x)
          end;
  south ← match run_3 with
          | [] => Ok PNone
          | _ => x ← py_max run_3; Ok (PInt x)
          end;
  Ok (dict_update elements [("north", north); ("south", south)]).

(** [_get_veh_vol] from the three runs [results[0]], [results[1]] and
    [results[2]] on. *)
Definition veh_vol_of_runs (run_1 run_2 run_3 : list Z)
  : result (gmap string pyval) :=
  elements ← east_west run_2 ∅;
  north_south run_1 run_3 elements.

Definition _get_veh_vol (text : PdfText) (key : Z) : result (gmap string pyval) :=
  section ← py_index (tail (split_maximum_hour text)) key;
  run_1 ← run_of (search_1 section);
  run_2 ← run_of (search_2 section);
  run_3 ← run_of (search_3 section);
  veh_vol_of_runs run_1 run_2 run_3.

(** [l[i] if len(l) > i else None] *)
Definition at_or_none (l : list string) (i : nat) : pyval :=
  match l !! i with
  | Some x => PStr x
  | None => PNone
  end.

(** The dictionary literal of the period fields of [_read_pdf]. *)
Definition pdf_period_block (text : PdfText) (l : label) (position : option Z)
  : result (list (string * pyval)) :=
  match position with
  | None => Raise TypeError
  | Some key =>
      pb ← _get_peds_and_bikes_vol text key;
      veh_vol ← _get_veh_vol text key;
      peak_hour ← _get_peak_hour text key;
      match pb with
      | None => Raise TypeError
      | Some peds_and_bikes_vol =>
          Ok [ (tag l +:+ "_peak_hour", peak_hour);
               (tag l +:+ "_north_bikes_vol", at_or_none peds_and_bikes_vol 0);
               (tag l +:+ "_north_peds_vol", at_or_none peds_and_bikes_vol 1);
               (tag l +:+ "_north_veh_vol", dict_get veh_vol "north");
               (tag l +:+ "_east_bikes_vol", at_or_none peds_and_bikes_vol 5);
               (tag l +:+ "_east_peds_vol", at_or_none peds_and_bikes_vol 4);
               (tag l +:+ "_east_veh_vol", dict_get veh_vol "east");
               (tag l +:+ "_south_bikes_vol", at_or_none peds_and_bikes_vol 7);
               (tag l +:+ "_south_peds_vol", at_or_none peds_and_bikes_vol 6);
               (tag l +:+ "_south_veh_vol", dict_get veh_vol "south");
               (tag l +:+ "_west_bikes_vol", at_or_none peds_and_bikes_vol 2);
               (tag l +:+ "_west_peds_vol", at_or_none peds_and_bikes_vol 3);
               (tag l +:+ "_west_veh_vol", dict_get veh_vol "west") ]
      end
  end.

(** The loop [for i in range(0, len(periods))], from index [i] on. *)
Fixpoint pdf_detect_loop (i : Z) (periods : list string) (st : detection)
  : result detection :=
  match periods with
  | [] => Ok st
  | period :: periods' =>
      st' ← detect_step i (Some period) st;
      pdf_detect_loop (i + 1) periods' st'
  end.

Definition pdf_detect (text : PdfText) : result detection :=
  pdf_detect_loop 0 (maximum_hour text) detection_init.

Section Pdf.

Variable to_datetime : string -> result timestamp.

Definition _get_date (text : PdfText) : result pyval :=
  match date_matches text with
  | [] => Ok PNone
  | e :: _ => t ← to_datetime e; Ok (PTimestamp t)
  end.

(** The body of the [try] of [_read_pdf], once the text is extracted. *)
Definition read_pdf_body (self : WebScraper) (text : PdfText)
  : result (gmap string pyval) :=
  st ← pdf_detect text;
  let st := set_checks self st in
  date ← _get_date text;
  let tmc :=
    dict_update ∅
      ([("date", date); ("weather", _get_weather text);
        ("type", _get_type text)] ++ flags_entries self st) in
  collect_periods (pdf_period_block text) st [AM; MD; PM] tmc.

Definition _read_pdf (self : WebScraper) (text : PdfText)
  : option (gmap string pyval) :=
  catch (read_pdf_body self text).

End Pdf.

(** *** Attachment links *)

(** [np.nan] *)
Definition nan : pyval := PObj "nan" true.

Definition year_key_dict : gmap string string :=
  list_to_map
    [ ("2012", "16"); ("2013", "16"); ("2014", "16"); ("2015", "16");
      ("2016", "16"); ("2017", "16"); ("2018", "211"); ("2019", "23");
      ("2020", "21"); ("2021", "20"); ("2022", "217") ].

Definition base_url : string := "https://maps.vancouver.ca".

(** The f-string of the path; a year without a key is formatted as [None]. *)
Definition path_url (year object_id : string) : string :=
  "/server/rest/services/VanMapViewer/Traffic_and_Transportation/MapServer/"
  +:+ default "None" (year_key_dict !! year)
  +:+ "/" +:+ object_id +:+ "/attachments/".

(** [sub in s] *)
Fixpoint contains (sub s : string) : bool :=
  String.prefix sub s
  || match s with
     | EmptyString => false
     | String _ s' => contains sub s'
     end.

(** An [a] tag of the attachments page: its [.string], which is [None]
    unless the tag holds a single string; its [.text], the strings below
    it joined; and its [href] when it has one. *)
Record Anchor : Type :=
  { a_string : option string; a_text : string; a_href : option string }.

(** The function given to [find] as [text]. *)
Definition is_attachment (x : string) : bool :=
  contains ".xlsx" (PyStr.lower x) || contains ".pdf" (PyStr.lower x).

(** [find('a', text=f)] on the [a] tags in document order: the first tag
    whose [.string] satisfies [f].  On a tag whose [.string] is [None],
    recent releases of Beautiful Soup pass the tag over, and older ones
    call [f] on [None]; [f] is the function of [_construct_url], whose
    [x.lower()] then raises.  [skips_missing_string] tells the two
    apart. *)
Fixpoint find_text (skips_missing_string : bool) (f : string -> bool)
  (tags : list Anchor) : result (option Anchor) :=
  match tags with
  | [] => Ok None
  | a :: tags' =>
      match a_string a with
      | Some x =>
          if f x then Ok (Some a) else find_text skips_missing_string f tags'
      | None =>
          if skips_missing_string then find_text skips_missing_string f tags'
          else Raise AttributeError
      end
  end.

Section ConstructUrl.

(** The [a] tags of the page a URL answers with, in document order; the
    request or its status check may raise. *)
Variable fetch : string -> result (list Anchor).

(** The behaviour of the installed Beautiful Soup on a tag without
    [.string]. *)
Variable skips_missing_string : bool.

Definition _construct_url (year object_id : string) : result (pyval * pyval) :=
  soup_link ← fetch (base_url +:+ path_url year object_id);
  found ← find_text skips_missing_string is_attachment soup_link;
  match found with
  | Some attachment_link_tag =>
      match a_href attachment_link_tag with
      | Some attachment_url =>
          let full_url := base_url +:+ attachment_url in
          let file_type :=
            if contains ".xlsx" (a_text attachment_link_tag)
            then "xlsx" else "pdf" in
          Ok (PStr full_url, PStr file_type)
      | None => Raise KeyError
      end
  | None => Ok (nan, PNone)
  end.

End ConstructUrl.

End RecentTMCScraper.

Import RecentTMCScraper.

(** ** One entry point for the three adapters *)

(** A retrieved document, as the adapter of its format sees it. *)
Inductive document : Type :=
| Html (soup : OldTMCScraper.Soup)
| Xlsx (wb : gmap string (gmap string cell_value))
| Pdf (text : PdfText).

(** The record of a document, or [None] when it is skipped. *)
Definition scrape (to_datetime : string -> result timestamp)
  (self : WebScraper) (doc : document) : option (gmap string pyval) :=
  match doc with
  | Html soup => OldTMCScraper._scrape_tmc to_datetime self soup
  | Xlsx wb => _read_xlsx to_datetime self wb
  | Pdf text => _read_pdf to_datetime self text
  end.

(** ** Vocabulary of the statements *)

(** The keys of a record: the nine of the document, and the thirteen of
    each period block. *)
Definition document_keys : list string :=
  [ "date"; "weather"; "type";
    "AM_available"; "AM_scraped"; "MD_available"; "MD_scraped";
    "PM_available"; "PM_scraped" ].

Definition period_suffixes : list string :=
  [ "_peak_hour";
    "_north_bikes_vol"; "_north_peds_vol"; "_north_veh_vol";
    "_east_bikes_vol"; "_east_peds_vol"; "_east_veh_vol";
    "_south_bikes_vol"; "_south_peds_vol"; "_south_veh_vol";
    "_west_bikes_vol"; "_west_peds_vol"; "_west_veh_vol" ].

Definition period_keys (l : label) : list string :=
  map (fun suffix => tag l +:+ suffix) period_suffixes.

(** The record before the period blocks are added. *)
Definition record_head (date weather type : pyval) (self : WebScraper)
  (st : detection) : gmap string pyval :=
  dict_update ∅
    ([("date", date); ("weather", weather); ("type", type)]
       ++ flags_entries self st).

(** The value a block of period fields gives to a key. *)
Definition field_of (kvs : list (string * pyval)) (k : string) : pyval :=
  dict_get (dict_update ∅ kvs) k.

(** [m] is the maximum of [run]. *)
Definition is_max (m : Z) (run : list Z) : Prop :=
  m ∈ run ∧ ∀ x, x ∈ run → x ≤ m.

(** The maximum when the condition holds, and absent otherwise. *)
Definition side (b : Prop) `{Decision b} (m : Z) : pyval :=
  if decide b then PInt m else PNone.

(** [veh_vol.get('east', None)] and [veh_vol.get('west', None)], as
    [_read_pdf] reads them. *)
Definition east_west_outcome (run_1 run_2 run_3 : list Z)
  : result (pyval * pyval) :=
  veh_vol ← veh_vol_of_runs run_1 run_2 run_3;
  Ok (dict_get veh_vol "east", dict_get veh_vol "west").

(** The rule table of the specification for the run of the second scan,
    by its length. *)
Definition rule_table (run : list Z) (east west : pyval) : Prop :=
  ((4 < length run)%nat →
     ∀ d, west = PInt (hd d run) ∧ east = PInt (List.last run d))
  ∧ (∀ a b c d, run = [a; b; c; d] →
       (a = b ∧ c = d → west = PInt a ∧ east = PInt d)
       ∧ (¬ (a = b ∧ c = d) → ∀ m, is_max m run →
            west = side (m = a) m ∧ east = side (m = d) m))
  ∧ (∀ a b c, run = [a; b; c] → ∀ m, is_max m run →
       west = side (m = a) m ∧ east = side (m = c) m)
  ∧ (length run = 2%nat →
       east = PStr "manual_check" ∧ west = PStr "manual_check")
  ∧ ((length run < 2)%nat → east = PNone ∧ west = PNone).

Definition pairwise_symmetric (run : list Z) : Prop :=
  ∃ a c, run = [a; a; c; c].

(** The label the HTML and PDF adapters give to a peak window, when its
    start hour can be read. *)
Definition window_label (period : option string) : option label :=
  match period with
  | Some p =>
      if truthy (PStr p) then
        match PyStr.to_int (PyStr.take 2 p) with
        | Ok peak_start_hr => classify peak_start_hr
        | Raise _ => None
        end
      else None
  | None => None
  end.

(** The detection loop over the candidate windows [(i, period)]. *)
Fixpoint detect_windows (windows : list (Z * option string)) (st : detection)
  : result detection :=
  match windows with
  | [] => Ok st
  | (i, period) :: windows' =>
      st' ← detect_step i period st;
      detect_windows windows' st'
  end.

(** The candidates of the two adapters, in the order of the loops. *)
Definition html_windows (soup : OldTMCScraper.Soup) : list (Z * option string) :=
  map (fun i => (i, OldTMCScraper._get_peak_hour soup i)) [2; 3; 4].

Fixpoint windows_from (i : Z) (periods : list string) : list (Z * option string) :=
  match periods with
  | [] => []
  | period :: periods' => (i, Some period) :: windows_from (i + 1) periods'
  end.

Definition pdf_windows (text : PdfText) : list (Z * option string) :=
  windows_from 0 (maximum_hour text).

(** The last window of a label gives the position kept for it ... *)
Definition last_match_wins (windows : list (Z * option string)) (st : detection)
  : Prop :=
  ∀ l n k p,
    windows !! n = Some (k, p) → window_label p = Some l →
    (∀ n' k' p', (n < n')%nat → windows !! n' = Some (k', p') →
                 window_label p' ≠ Some l) →
    table_key (ctl_of l st) = Some k.

(** ... and the first one, as the specification has it. *)
Definition first_match_wins (windows : list (Z * option string)) (st : detection)
  : Prop :=
  ∀ l n k p,
    windows !! n = Some (k, p) → window_label p = Some l →
    (∀ n' k' p', (n' < n)%nat → windows !! n' = Some (k', p') →
                 window_label p' ≠ Some l) →
    table_key (ctl_of l st) = Some k.

(** The start hour of a window written [H:MM - H:MM], as the
    specification has it: the number before the first colon. *)
Fixpoint before_colon (s : string) : string :=
  match s with
  | EmptyString => EmptyString
  | String c s' =>
      if Ascii.eqb c ":"%char then EmptyString else String c (before_colon s')
  end.

Definition start_hour (p : string) : option Z :=
  match PyStr.to_int (before_colon p) with
  | Ok h => Some h
  | Raise _ => None
  end.

(** [slot] is the label of the specification for the start hour [h], or
    none. *)
Definition slot_of_hour (h : Z) (slot : option label) : Prop :=
  (slot = Some AM ↔ 6 ≤ h ≤ 8)
  ∧ (slot = Some MD ↔ 9 ≤ h ≤ 15)
  ∧ (slot = Some PM ↔ 16 ≤ h ≤ 19)
  ∧ (slot = None ↔ h < 6 ∨ 19 < h).

(** From [st] to [st'], the window at position [i] has been given to
    [slot]: that label has become available with the position [i], and
    nothing else has changed. *)
Definition assigned_to (i : Z) (slot : option label) (st st' : detection)
  : Prop :=
  ∀ l, available l st'
       = (if decide (slot = Some l) then true else available l st)
       ∧ table_key (ctl_of l st')
         = (if decide (slot = Some l) then Some i else table_key (ctl_of l st))
       ∧ check (ctl_of l st') = check (ctl_of l st).

(** The fixed position of a label in a worksheet. *)
Definition anchor (l : label) : Z :=
  match l with AM => 32 | MD => 62 | PM => 92 end.

(** The label the spreadsheet adapter gives to the window at position
    [i], when both of its ends can be read and subtracted. *)
Definition xlsx_window_label (to_datetime : string -> result timestamp)
  (ws : gmap string cell_value) (i : Z) : option label :=
  match _xlsx_get_peak_hour ws i with
  | Some period =>
      if truthy (PStr period) then
        match to_datetime (PyStr.take_last 5 period),
              to_datetime (PyStr.take 6 period) with
        | Ok t_end, Ok t_start =>
            match one_hour t_end t_start with
            | Ok period_check =>
                if (i =? 32) && period_check then Some AM
                else if (i =? 62) && period_check then Some MD
                else if (i =? 92) && period_check then Some PM
                else None
            | Raise _ => None
            end
        | _, _ => None
        end
      else None
  | None => None
  end.

(** The window at position [i] of a worksheet lasts one hour: its ends
    are read as two points in time, both without a time zone or both with
    one, 3600 seconds apart. *)
Definition one_hour_window (to_datetime : string -> result timestamp)
  (ws : gmap string cell_value) (i : Z) : Prop :=
  ∃ period t_end t_start,
    _xlsx_get_peak_hour ws i = Some period
    ∧ ((to_datetime (PyStr.take_last 5 period) = Ok (At t_end)
        ∧ to_datetime (PyStr.take 6 period) = Ok (At t_start))
       ∨ (to_datetime (PyStr.take_last 5 period) = Ok (AtTz t_end)
          ∧ to_datetime (PyStr.take 6 period) = Ok (AtTz t_start)))
    ∧ t_end - t_start = 3600.

(** The position of the keyword-tagged numbers of a segment. *)
Definition number_at (segment : Segment) (i : nat) : pyval :=
  match (tagged_numbers segment).*2 !! i with
  | Some number => PStr number
  | None => PNone
  end.

(** The positions of the specification, and those of [_read_pdf]. *)
Definition claimed_positions : list (string * nat) :=
  [ ("_north_peds_vol", 0%nat); ("_north_bikes_vol", 1%nat);
    ("_west_peds_vol", 2%nat); ("_west_bikes_vol", 3%nat);
    ("_east_peds_vol", 4%nat); ("_east_bikes_vol", 5%nat);
    ("_south_peds_vol", 6%nat); ("_south_bikes_vol", 7%nat) ].

Definition source_positions : list (string * nat) :=
  [ ("_north_bikes_vol", 0%nat); ("_north_peds_vol", 1%nat);
    ("_west_bikes_vol", 2%nat); ("_west_peds_vol", 3%nat);
    ("_east_peds_vol", 4%nat); ("_east_bikes_vol", 5%nat);
    ("_south_peds_vol", 6%nat); ("_south_bikes_vol", 7%nat) ].

(** The block of period fields takes each field from its position. *)
Definition assigned_by (positions : list (string * nat)) (text : PdfText)
  (l : label) (key : Z) (kvs : list (string * pyval)) : Prop :=
  ∃ segment,
    py_index (tail (split_maximum_hour text)) key = Ok segment
    ∧ ∀ suffix i, (suffix, i) ∈ positions →
        field_of kvs (tag l +:+ suffix) = number_at segment i.

(** The filter options all hold [True]. *)
Definition all_true (options : gmap string pyval) : Prop :=
  options !! "AM" = Some (PBool true)
  ∧ options !! "PM" = Some (PBool true)
  ∧ options !! "MD" = Some (PBool true).

(** The period detection of a document, by its format. *)
Definition detect_of (to_datetime : string -> result timestamp)
  (doc : document) : result detection :=
  match doc with
  | Html soup => OldTMCScraper.detect soup
  | Xlsx wb =>
      match wb !! "Summary" with
      | Some ws => xlsx_detect to_datetime ws
      | None => Raise KeyError
      end
  | Pdf text => pdf_detect text
  end.

(** A label is available exactly when a position is kept for it. *)
Definition positioned (st : detection) : Prop :=
  ∀ l, available l st = true ↔ is_Some (table_key (ctl_of l st)).

(** The column and the row offset from the anchor of each volume of a
    worksheet. *)
Definition xlsx_cells : list (string * (string * Z)) :=
  [ ("_north_bikes_vol", ("M", 1)); ("_north_peds_vol", ("L", 2));
    ("_north_veh_vol", ("M", 0)); ("_east_bikes_vol", ("AA", 12));
    ("_east_peds_vol", ("Z", 11)); ("_east_veh_vol", ("AB", 12));
    ("_south_bikes_vol", ("P", 26)); ("_south_peds_vol", ("Q", 25));
    ("_south_veh_vol", ("P", 27)); ("_west_bikes_vol", ("B", 15));
    ("_west_peds_vol", ("C", 16)); ("_west_veh_vol", ("A", 15)) ].

(** The computation raises. *)
Definition raises {A} (r : result A) : Prop := ∃ e, r = Raise e.

(** An end of the window at position [i] of a worksheet cannot be read
    as a time. *)
Definition unreadable_window (to_datetime : string -> result timestamp)
  (ws : gmap string cell_value) (i : Z) : Prop :=
  ∃ period, _xlsx_get_peak_hour ws i = Some period
            ∧ (raises (to_datetime (PyStr.take_last 5 period))
               ∨ raises (to_datetime (PyStr.take 6 period))).

(** The ends of the window at position [i] of a worksheet are read as one
    time with a time zone and one without. *)
Definition mixed_time_zones (to_datetime : string -> result timestamp)
  (ws : gmap string cell_value) (i : Z) : Prop :=
  ∃ period t_end t_start,
    _xlsx_get_peak_hour ws i = Some period
    ∧ ((to_datetime (PyStr.take_last 5 period) = Ok (AtTz t_end)
        ∧ to_datetime (PyStr.take 6 period) = Ok (At t_start))
       ∨ (to_datetime (PyStr.take_last 5 period) = Ok (At t_end)
          ∧ to_datetime (PyStr.take 6 period) = Ok (AtTz t_start))).

(** The weather cell holds something true that is not a text. *)
Definition weather_not_text (ws : gmap string cell_value) : Prop :=
  truthy (cell_py (cell ws "V" 8)) = true ∧ ∀ s, cell ws "V" 8 ≠ CStr s.

(** The text has a digit; it has only digits; it is a run of digits. *)
Fixpoint has_digit (s : string) : bool :=
  match s with
  | EmptyString => false
  | String c s' => PyStr.is_digit c || has_digit s'
  end.

Fixpoint all_digits (s : string) : bool :=
  match s with
  | EmptyString => true
  | String c s' => PyStr.is_digit c && all_digits s'
  end.

Definition is_number (s : string) : bool :=
  negb (String.eqb s "") && all_digits s.

(** [None], or a text made of digits. *)
Definition digit_string (v : pyval) : Prop :=
  v = PNone ∨ ∃ d, v = PStr d ∧ is_number d = true.

(** The twelve volume fields of a period block. *)
Definition volume_suffixes : list string :=
  [ "_north_bikes_vol"; "_north_peds_vol"; "_north_veh_vol";
    "_east_bikes_vol"; "_east_peds_vol"; "_east_veh_vol";
    "_south_bikes_vol"; "_south_peds_vol"; "_south_veh_vol";
    "_west_bikes_vol"; "_west_peds_vol"; "_west_veh_vol" ].

(** The first two characters of a non-empty peak hour text are not an
    integer. *)
Definition unreadable_hour (period : option string) : Prop :=
  ∃ p, period = Some p ∧ p ≠ EmptyString
       ∧ raises (PyStr.to_int (PyStr.take 2 p)).

(** The shape the peak window pattern of the PDF adapter gives to a
    match. *)
Definition starts_with_two_digits (p : string) : Prop :=
  ∃ c1 c2 rest, p = String c1 (String c2 rest)
                ∧ PyStr.is_digit c1 = true ∧ PyStr.is_digit c2 = true.

(** The pedestrian and bicycle fields of a period block. *)
Definition count_suffixes : list string :=
  [ "_north_bikes_vol"; "_north_peds_vol"; "_east_bikes_vol"; "_east_peds_vol";
    "_south_bikes_vol"; "_south_peds_vol"; "_west_bikes_vol"; "_west_peds_vol" ].

(** The kinds of values of a PDF record. *)
Definition text_or_none (v : pyval) : Prop := v = PNone ∨ ∃ s, v = PStr s.
Definition int_or_absent (v : pyval) : Prop := v = PNone ∨ ∃ z, v = PInt z.
Definition int_mark_or_absent (v : pyval) : Prop :=
  v = PNone ∨ (∃ z, v = PInt z) ∨ v = PStr "manual_check".

(** ** Documents of the examples *)

(** A reading of [pandas.to_datetime] on the clock texts [HH:MM] of one
    day, for the examples. *)
Definition clock (s : string) : result timestamp :=
  let t := PyStr.strip s in
  if (String.length t =? 5)%nat && String.eqb (PyStr.take 1 (PyStr.drop 2 t)) ":" then
    h ← PyStr.to_int (PyStr.take 2 t);
    m ← PyStr.to_int (PyStr.drop 3 t);
    Ok (At (3600 * h + 60 * m))
  else Raise ParserError.

Definition morning_sheet : gmap string cell_value :=
  <["N47" := CObj "07:15:00" true]> (<["P47" := CObj "08:15:00" true]> ∅).

Definition morning_workbook : gmap string (gmap string cell_value) :=
  <["Summary" := morning_sheet]> ∅.

(** A reading that also takes the texts [HHMMZ] as times of the day in
    UTC, and a worksheet whose morning window ends with such a text. *)
Definition zoned_clock (s : string) : result timestamp :=
  let t := PyStr.strip s in
  if (String.length t =? 5)%nat && String.eqb (PyStr.drop 4 t) "Z" then
    h ← PyStr.to_int (PyStr.take 2 t);
    m ← PyStr.to_int (PyStr.take 2 (PyStr.drop 2 t));
    Ok (AtTz (3600 * h + 60 * m))
  else clock s.

Definition zoned_sheet : gmap string cell_value :=
  <["N47" := CObj "07:15:00" true]> (<["P47" := CStr "0815Z:00"]> ∅).

Definition zoned_workbook : gmap string (gmap string cell_value) :=
  <["Summary" := zoned_sheet]> ∅.

Definition all_periods : WebScraper := WebScraper_init None.

Definition two_morning_windows : PdfText :=
  {| maximum_hour := ["07:00 - 08:00"; "08:00 - 09:00"];
     date_matches := []; weather_matches := []; type_matches := [];
     split_maximum_hour := [] |}.

Definition no_scan : Segment :=
  {| tagged_numbers := []; search_1 := None; search_2 := None; search_3 := None |}.

Definition eight_counts : Segment :=
  {| tagged_numbers :=
       [ ("Bikes", "1"); ("PEDs", "2"); ("Bikes", "3"); ("Peds", "4");
         ("Peds", "5"); ("Bikes", "6"); ("PEDs", "7"); ("Bikes", "8") ];
     search_1 := Some " 11 12"; search_2 := Some " 21 22 23"; search_3 := Some " 31 32" |}.

Definition morning_text : PdfText :=
  {| maximum_hour := ["07:00 - 08:00"];
     date_matches := []; weather_matches := ["Clear"]; type_matches := [];
     split_maximum_hour := [no_scan; eight_counts] |}.

Definition midday_text : PdfText :=
  {| maximum_hour := ["12:00 - 13:00"];
     date_matches := []; weather_matches := ["Clear"]; type_matches := [];
     split_maximum_hour := [no_scan; eight_counts] |}.

(** A page whose first period table is a morning one and whose north
    bikes row reads [bikes_row]. *)
Definition morning_soup (bikes_row : string) : OldTMCScraper.Soup :=
  {| OldTMCScraper.date_p := None;
     OldTMCScraper.weather_p := [];
     OldTMCScraper.type_p := None;
     OldTMCScraper.peak_hour_p :=
       fun key => if key =? 2 then Some "Maximum Hour 07:00 - 08:00" else None;
     OldTMCScraper.north_bikes_tr :=
       fun key => if key =? 2 then [bikes_row] else [];
     OldTMCScraper.north_peds_th := fun _ => [];
     OldTMCScraper.north_veh_th := fun _ => [];
     OldTMCScraper.bikes_th := [];
     OldTMCScraper.peds_th := [];
     OldTMCScraper.east_veh_th := [];
     OldTMCScraper.south_bikes_tr := [];
     OldTMCScraper.south_peds_th := [];
     OldTMCScraper.south_veh_th := fun _ => [];
     OldTMCScraper.west_veh_th := [] |}.

(** The morning sheet with a north vehicle count of zero. *)
Definition counted_sheet : gmap string cell_value :=
  <["M32" := CInt 0]> (<["M33" := CInt 4]> morning_sheet).

Definition counted_workbook : gmap string (gmap string cell_value) :=
  <["Summary" := counted_sheet]> ∅.

(** A page whose second period table has a peak hour without a leading
    zero. *)
Definition short_hour_soup : OldTMCScraper.Soup :=
  {| OldTMCScraper.date_p := None;
     OldTMCScraper.weather_p := [];
     OldTMCScraper.type_p := None;
     OldTMCScraper.peak_hour_p :=
       fun key => if key =? 3 then Some "Maximum Hour 7:30 - 8:30" else None;
     OldTMCScraper.north_bikes_tr := fun _ => [];
     OldTMCScraper.north_peds_th := fun _ => [];
     OldTMCScraper.north_veh_th := fun _ => [];
     OldTMCScraper.bikes_th := [];
     OldTMCScraper.peds_th := [];
     OldTMCScraper.east_veh_th := [];
     OldTMCScraper.south_bikes_tr := [];
     OldTMCScraper.south_peds_th := [];
     OldTMCScraper.south_veh_th := fun _ => [];
     OldTMCScraper.west_veh_th := [] |}.

(** A page with a single east vehicle cell. *)
Definition one_east_cell_soup : OldTMCScraper.Soup :=
  {| OldTMCScraper.date_p := None;
     OldTMCScraper.weather_p := [];
     OldTMCScraper.type_p := None;
     OldTMCScraper.peak_hour_p := fun _ => None;
     OldTMCScraper.north_bikes_tr := fun _ => [];
     OldTMCScraper.north_peds_th := fun _ => [];
     OldTMCScraper.north_veh_th := fun _ => [];
     OldTMCScraper.bikes_th := ["Bikes 1"];
     OldTMCScraper.peds_th := [];
     OldTMCScraper.east_veh_th := ["120"];
     OldTMCScraper.south_bikes_tr := [];
     OldTMCScraper.south_peds_th := [];
     OldTMCScraper.south_veh_th := fun _ => [];
     OldTMCScraper.west_veh_th := ["98"] |}.

(** An [a] tag that holds one string and nothing else. *)
Definition plain_link (s : string) (href : option string) : Anchor :=
  {| a_string := Some s; a_text := s; a_href := href |}.

(** The link [<a href="/x"><b>report</b>.pdf</a>] holds a tag and a
    string: it has a text and no [.string]. *)
Definition nested_link : Anchor :=
  {| a_string := None; a_text := "report.pdf"; a_href := Some "/x" |}.

(** An attachments page whose spreadsheet has an upper-case extension. *)
Definition upper_case_page : list Anchor :=
  [ plain_link "Home" (Some "/");
    nested_link;
    plain_link "Counts.XLSX" (Some "/server/att/7");
    plain_link "report.pdf" (Some "/server/att/8") ].

(** A page whose only link to a file has no [.string]. *)
Definition nested_link_page : list Anchor :=
  [ plain_link "Home" (Some "/"); nested_link ].


(** * Properties *)

(** ** Results and lists *)

Lemma bind_ok {A B} (r : result A) (f : A → result B) (y : B) :
  (x ← r; f x) = Ok y → ∃ x, r = Ok x ∧ f x = Ok y.
Proof. destruct r as [x|e]; [|done]. intros H. by exists x. Qed.

Lemma catch_some {A} (r : result A) (x : A) : catch r = Some x → r = Ok x.
Proof. destruct r; [|done]. by intros [= ->]. Qed.

Ltac binds H :=
  repeat (let x := fresh "x" in let Hx := fresh "Hx" in
          apply bind_ok in H as (x & Hx & H)).

Lemma Ok_inj {A} (x y : A) : Ok x = Ok y → x = y.
Proof. by intros [= ->]. Qed.

Lemma fold_left_max_ge (l : list Z) (x : Z) :
  x ≤ fold_left Z.max l x ∧ ∀ y, y ∈ l → y ≤ fold_left Z.max l x.
Proof.
  revert x. induction l as [|a l IH]; intros x; simpl.
  - split; [lia|]. intros y Hy. by apply elem_of_nil in Hy.
  - destruct (IH (Z.max x a)) as [H1 H2]. split; [lia|].
    intros y Hy. apply elem_of_cons in Hy as [->|Hy]; [lia|by apply H2].
Qed.

Lemma fold_left_max_in (l : list Z) (x : Z) :
  fold_left Z.max l x ∈ x :: l.
Proof.
  revert x. induction l as [|a l IH]; intros x; simpl.
  - apply elem_of_cons; by left.
  - specialize (IH (Z.max x a)). rewrite !elem_of_cons in *.
    destruct IH as [Heq|Hin]; [|by auto].
    rewrite Heq. destruct (Z.max_spec x a) as [[_ ->]|[_ ->]]; auto.
Qed.

Lemma py_max_is_max (run : list Z) (m : Z) :
  py_max run = Ok m → is_max m run.
Proof.
  destruct run as [|x l]; simpl; [done|]. intros [= <-]. split.
  - apply fold_left_max_in.
  - intros y Hy. destruct (fold_left_max_ge l x) as [H1 H2].
    apply elem_of_cons in Hy as [->|Hy]; [done|by apply H2].
Qed.

Lemma py_max_total (run : list Z) :
  run ≠ [] → ∃ m, py_max run = Ok m.
Proof. destruct run; [done|]. intros _. by eexists. Qed.

Lemma is_max_unique (m m' : Z) (run : list Z) :
  is_max m run → is_max m' run → m = m'.
Proof. intros [H1 H2] [H3 H4]. specialize (H2 _ H3). specialize (H4 _ H1). lia. Qed.

Lemma py_index_first {A} (x : A) (l : list A) : py_index (x :: l) 0 = Ok x.
Proof.
  unfold py_index. simpl length.
  replace (0 <? 0) with false by done.
  replace ((0 <=? 0) && (0 <? Z.of_nat (S (length l)))) with true; [done|].
  symmetry. apply andb_true_iff. split; [done|]. apply Z.ltb_lt. lia.
Qed.

Lemma py_index_last {A} (x d : A) (l : list A) :
  py_index (x :: l) (-1) = Ok (List.last (x :: l) d).
Proof.
  unfold py_index. replace (-1 <? 0) with true by done.
  set (n := Z.of_nat (length (x :: l))).
  assert (Hn : 1 ≤ n) by (unfold n; simpl length; lia).
  replace ((0 <=? -1 + n) && (-1 + n <? n)) with true.
  2:{ symmetry. apply andb_true_iff. split; [apply Z.leb_le|apply Z.ltb_lt]; lia. }
  replace (Z.to_nat (-1 + n)) with (length l) by (unfold n; simpl length; lia).
  assert (Hl : (x :: l) !! length l = Some (List.last (x :: l) d)).
  { clear. revert x. induction l as [|y l IH]; intros x; [done|].
    change ((x :: y :: l) !! length (y :: l)) with ((y :: l) !! length l).
    rewrite IH. done. }
  by rewrite Hl.
Qed.

Lemma length_gt_4 {A} (l : list A) :
  (4 < length l)%nat → (4 <? Z.of_nat (length l)) = true.
Proof. intros. apply Z.ltb_lt. lia. Qed.

Lemma take_lookup_8 {A} (l : list A) (i : nat) :
  (i < 8)%nat → take 8 l !! i = l !! i.
Proof. intros. by apply lookup_take_lt. Qed.

Lemma py_index_map {A B} (f : A → B) (l : list A) (i : Z) (y : B) :
  py_index (map f l) i = Ok y → ∃ x, py_index l i = Ok x ∧ y = f x.
Proof.
  unfold py_index. rewrite length_map.
  destruct (_ && _); [|done].
  rewrite list_lookup_fmap. destruct (l !! _) as [x|]; [|done].
  intros [= <-]. by exists x.
Qed.

(** ** Dictionaries and keys *)

Lemma dict_update_lookup_notin (d : gmap string pyval) kvs (k : string) :
  k ∉ kvs.*1 → dict_update d kvs !! k = d !! k.
Proof.
  revert d. induction kvs as [|[k' v] kvs IH]; intros d Hk; [done|].
  simpl in Hk. apply not_elem_of_cons in Hk as [Hne Hk].
  unfold dict_update. simpl. fold (dict_update (<[k':=v]> d) kvs).
  rewrite IH by done. by rewrite lookup_insert_ne.
Qed.

Lemma dict_update_is_Some (d : gmap string pyval) kvs (k : string) :
  is_Some (dict_update d kvs !! k) ↔ k ∈ kvs.*1 ∨ is_Some (d !! k).
Proof.
  revert d. induction kvs as [|[k' v] kvs IH]; intros d.
  - simpl. rewrite elem_of_nil. unfold dict_update. simpl. tauto.
  - unfold dict_update. simpl. fold (dict_update (<[k':=v]> d) kvs).
    rewrite IH, elem_of_cons. destruct (decide (k' = k)) as [->|Hne].
    + rewrite lookup_insert_eq. split; [auto|]. intros _. right. by eexists.
    + rewrite lookup_insert_ne by done. split; [tauto|].
      intros [[?|?]|?]; [congruence|tauto|tauto].
Qed.

Lemma period_keys_apart (l l' : label) :
  l ≠ l' → Forall (fun k => k ∉ period_keys l') (period_keys l).
Proof.
  destruct l, l'; intros Hne; try done;
    apply (bool_decide_unpack _); vm_compute; exact I.
Qed.

Lemma period_keys_disjoint (l l' : label) (k : string) :
  k ∈ period_keys l → k ∈ period_keys l' → l = l'.
Proof.
  intros H H'. destruct (decide (l = l')) as [|Hne]; [done|].
  pose proof (period_keys_apart l l' Hne) as Hall.
  rewrite Forall_forall in Hall. by destruct (Hall k H).
Qed.

Lemma period_keys_not_document (l : label) (k : string) :
  k ∈ period_keys l → k ∉ document_keys.
Proof.
  assert (Hall : Forall (fun k => k ∉ document_keys) (period_keys l)).
  { destruct l; apply (bool_decide_unpack _); vm_compute; exact I. }
  rewrite Forall_forall in Hall. apply Hall.
Qed.

Lemma document_keys_not_period (l : label) (k : string) :
  k ∈ document_keys → k ∉ period_keys l.
Proof. intros Hk Hp. by apply (period_keys_not_document l k). Qed.

Lemma flag_keys_document (l : label) :
  tag l +:+ "_available" ∈ document_keys ∧ tag l +:+ "_scraped" ∈ document_keys.
Proof. destruct l; split; apply (bool_decide_unpack _); vm_compute; exact I. Qed.

Lemma record_head_keys date weather type self st (k : string) :
  is_Some (record_head date weather type self st !! k) ↔ k ∈ document_keys.
Proof.
  unfold record_head. rewrite dict_update_is_Some, lookup_empty.
  split; [intros [?|[? ?]]; done|auto].
Qed.

Lemma record_head_available date weather type self st (l : label) :
  record_head date weather type self st !! (tag l +:+ "_available")
  = Some (PBool (available l st)).
Proof. destruct l; unfold record_head, dict_update; simpl; by simplify_map_eq. Qed.

Lemma record_head_scraped date weather type self st (l : label) :
  record_head date weather type self st !! (tag l +:+ "_scraped")
  = Some (collect l self).
Proof. destruct l; unfold record_head, dict_update; simpl; by simplify_map_eq. Qed.

(** ** The vehicle volumes of the PDF adapter *)

Lemma get_after_north_south (r1 r3 : list Z) (elements : gmap string pyval) :
  ∃ veh, north_south r1 r3 elements = Ok veh
    ∧ dict_get veh "east" = dict_get elements "east"
    ∧ dict_get veh "west" = dict_get elements "west"
    ∧ dict_get veh "north" = match r1 with [] => PNone | x :: _ => PInt x end
    ∧ (r3 = [] → dict_get veh "south" = PNone)
    ∧ (∀ m, is_max m r3 → dict_get veh "south" = PInt m).
Proof.
  unfold north_south.
  assert (Hn : ∃ n, match r1 with [] => Ok PNone | _ :: _ => x ← py_index r1 0; Ok (PInt x) end = Ok n
     ∧ n = match r1 with [] => PNone | x :: _ => PInt x end).
  { destruct r1; [by eexists|]. rewrite py_index_first. by eexists. }
  destruct Hn as (n & -> & Hn).
  assert (Hs : ∃ s, match r3 with [] => Ok PNone | _ :: _ => x ← py_max r3; Ok (PInt x) end = Ok s
     ∧ (r3 = [] → s = PNone) ∧ (∀ m, is_max m r3 → s = PInt m)).
  { destruct r3 as [|z r3]; [eexists; split; [done|split; [done|]]|].
    - intros m [Hm _]. by apply elem_of_nil in Hm.
    - destruct (py_max_total (z :: r3)) as [m Hm]; [done|]. rewrite Hm.
      eexists; split; [done|]. split; [done|].
      intros m' Hm'. f_equal. eapply is_max_unique; [|done]. by apply py_max_is_max. }
  destruct Hs as (s & -> & Hs1 & Hs2).
  eexists. split; [done|].
  unfold dict_get, dict_update. simpl.
  repeat split; try (by simplify_map_eq); try (intros; simplify_map_eq; auto).
Qed.

Lemma int_or_none_side (m x : Z) : int_or_none (m =? x) m = side (m = x) m.
Proof.
  unfold int_or_none, side. destruct (Z.eqb_spec m x); by case_decide.
Qed.

Ltac map_get := unfold dict_get, dict_update; simpl; by simplify_map_eq.

Lemma last_default {A} (l : list A) (d d' : A) :
  l ≠ [] → List.last l d = List.last l d'.
Proof.
  induction l as [|x [|y l] IH]; [done|done|]. intros _.
  change (List.last (y :: l) d = List.last (y :: l) d'). by apply IH.
Qed.

Lemma east_west_3 (a b c : Z) (elements : gmap string pyval) :
  east_west [a; b; c] elements =
    decision ← py_max [a; b; c];
    Ok (dict_update elements
          [("east", int_or_none (decision =? c) decision);
           ("west", int_or_none (decision =? a) decision)]).
Proof. reflexivity. Qed.

Lemma east_west_4 (a b c d : Z) (elements : gmap string pyval) :
  east_west [a; b; c; d] elements =
    if (a =? b) && (c =? d) then
      Ok (dict_update elements [("east", PInt d); ("west", PInt a)])
    else
      decision ← py_max [a; b; c; d];
      Ok (dict_update elements
            [("east", int_or_none (decision =? d) decision);
             ("west", int_or_none (decision =? a) decision)]).
Proof. reflexivity. Qed.

Lemma east_west_long (run : list Z) (elements : gmap string pyval) (d : Z) :
  (4 < length run)%nat →
  east_west run elements =
    Ok (dict_update elements
          [("east", PInt (List.last run d)); ("west", PInt (hd d run))]).
Proof.
  intros Hlen. destruct run as [|a run]; [simpl in Hlen; lia|].
  unfold east_west. rewrite length_gt_4 by done.
  by rewrite (py_index_last a d), py_index_first.
Qed.

Lemma east_west_table (run : list Z) :
  ∃ elements, east_west run ∅ = Ok elements
    ∧ rule_table run (dict_get elements "east") (dict_get elements "west").
Proof.
  destruct run as [|a [|b [|c [|d [|e rest]]]]].
  - exists ∅. split; [done|]. repeat split; intros; simplify_eq/=; try lia; done.
  - exists ∅. split; [done|]. repeat split; intros; simplify_eq/=; try lia; done.
  - eexists. split; [done|]. repeat split; intros; simplify_eq/=; try lia; map_get.
  - destruct (py_max_total [a; b; c]) as [m Hm]; [done|].
    pose proof (py_max_is_max _ _ Hm) as Hmax.
    eexists. split; [by rewrite east_west_3, Hm|].
    repeat split; intros; simplify_eq/=; try lia;
      match goal with
      | H : is_max _ _ |- _ =>
          rewrite (is_max_unique _ _ _ H Hmax), <- int_or_none_side; map_get
      end.
  - destruct (py_max_total [a; b; c; d]) as [m Hm]; [done|].
    pose proof (py_max_is_max _ _ Hm) as Hmax.
    destruct ((a =? b) && (c =? d)) eqn:Hsym.
    + eexists. split; [by rewrite east_west_4, Hsym|].
      apply andb_true_iff in Hsym as [?%Z.eqb_eq ?%Z.eqb_eq].
      repeat split; intros; simplify_eq/=; try lia; try map_get.
      all: exfalso; naive_solver.
    + eexists. split; [by rewrite east_west_4, Hsym, Hm|].
      apply andb_false_iff in Hsym.
      repeat split; intros; simplify_eq/=; try lia;
        try (exfalso; destruct Hsym as [?%Z.eqb_neq| ?%Z.eqb_neq]; naive_solver);
        match goal with
        | H : is_max _ _ |- _ =>
            rewrite (is_max_unique _ _ _ H Hmax), <- int_or_none_side; map_get
        end.
  - set (run := a :: b :: c :: d :: e :: rest).
    eexists. split; [apply (east_west_long run ∅ 0); simpl; lia|].
    split; [|repeat split; intros; simplify_eq/=; lia].
    intros _ d0. rewrite (last_default _ 0 d0) by done. split; map_get.
Qed.

Lemma east_west_outcome_table (run_1 run_2 run_3 : list Z) :
  ∃ east west, east_west_outcome run_1 run_2 run_3 = Ok (east, west)
    ∧ rule_table run_2 east west.
Proof.
  destruct (east_west_table run_2) as (elements & Hew & Htable).
  destruct (get_after_north_south run_1 run_3 elements)
    as (veh & Hns & He & Hw & _).
  exists (dict_get elements "east"), (dict_get elements "west").
  split; [|done].
  unfold east_west_outcome, veh_vol_of_runs. rewrite Hew. simpl.
  rewrite Hns. simpl. by rewrite He, Hw.
Qed.

(** C3. For every run of the second scan the east and west vehicle
    volumes are defined and follow the rule table by length: more than
    four numbers give west the first and east the last; four numbers
    paired as [a, a, c, c] give west the first and east the last, and
    otherwise the maximum goes to each end it equals, a side whose end it
    does not equal being absent; three numbers follow the same maximum
    rule; two numbers give ['manual_check'] on both sides; fewer give
    both absent.  So [10, 10, 20, 20] gives west 10 and east 20,
    [10, 15, 20] gives east 20 and no west, and [5, 9] gives the mark on
    both sides. *)
Theorem disambiguator_rule_table (run_1 run_2 run_3 : list Z) :
  (∃ east west, east_west_outcome run_1 run_2 run_3 = Ok (east, west)
     ∧ rule_table run_2 east west)
  ∧ east_west_outcome run_1 [10; 10; 20; 20] run_3 = Ok (PInt 20, PInt 10)
  ∧ east_west_outcome run_1 [10; 15; 20] run_3 = Ok (PInt 20, PNone)
  ∧ east_west_outcome run_1 [5; 9] run_3
    = Ok (PStr "manual_check", PStr "manual_check").
Proof.
  split; [apply east_west_outcome_table|].
  assert (Hmax3 : is_max 20 [10; 15; 20]).
  { split; [rewrite !elem_of_cons; auto|]. intros x. rewrite !elem_of_cons, elem_of_nil. lia. }
  repeat split.
  - destruct (east_west_outcome_table run_1 [10; 10; 20; 20] run_3)
      as (east & west & -> & _ & H4 & _).
    destruct (H4 _ _ _ _ eq_refl) as [Hsym _].
    destruct Hsym as [-> ->]; done.
  - destruct (east_west_outcome_table run_1 [10; 15; 20] run_3)
      as (east & west & -> & _ & _ & H3 & _).
    destruct (H3 _ _ _ eq_refl 20 Hmax3) as [-> ->]. done.
  - destruct (east_west_outcome_table run_1 [5; 9] run_3)
      as (east & west & -> & _ & _ & _ & H2 & _).
    destruct (H2 eq_refl) as [-> ->]. done.
Qed.

(** C9. The vehicle volumes are always defined; the north volume is the
    first number of the run of the first scan, or absent when that run is
    empty; the south volume is the maximum of the run of the third scan,
    or absent when that run is empty; and neither depends on the run of
    the second scan, which decides east and west. *)
Theorem north_south_volumes (run_1 run_2 run_3 : list Z) :
  ∃ veh_vol, veh_vol_of_runs run_1 run_2 run_3 = Ok veh_vol
    ∧ dict_get veh_vol "north"
      = match run_1 with [] => PNone | first :: _ => PInt first end
    ∧ (run_3 = [] → dict_get veh_vol "south" = PNone)
    ∧ (∀ m, is_max m run_3 → dict_get veh_vol "south" = PInt m)
    ∧ ∀ run_2', ∃ veh_vol', veh_vol_of_runs run_1 run_2' run_3 = Ok veh_vol'
        ∧ dict_get veh_vol' "north" = dict_get veh_vol "north"
        ∧ dict_get veh_vol' "south" = dict_get veh_vol "south".
Proof.
  assert (Hgen : ∀ r2, ∃ veh, veh_vol_of_runs run_1 r2 run_3 = Ok veh
    ∧ dict_get veh "north" = match run_1 with [] => PNone | x :: _ => PInt x end
    ∧ (run_3 = [] → dict_get veh "south" = PNone)
    ∧ (∀ m, is_max m run_3 → dict_get veh "south" = PInt m)).
  { intros r2. destruct (east_west_table r2) as (elements & Hew & _).
    destruct (get_after_north_south run_1 run_3 elements)
      as (veh & Hns & _ & _ & Hn & Hs0 & Hs).
    exists veh. unfold veh_vol_of_runs. rewrite Hew. simpl. by rewrite Hns. }
  destruct (Hgen run_2) as (veh & Hveh & Hn & Hs0 & Hs).
  exists veh. repeat split; try done.
  intros r2'. destruct (Hgen r2') as (veh' & Hveh' & Hn' & Hs0' & Hs').
  exists veh'. split; [done|]. split; [by rewrite Hn, Hn'|].
  destruct run_3 as [|z r3]; [by rewrite Hs0, Hs0'|].
  destruct (py_max_total (z :: r3)) as [m Hm]; [done|].
  apply py_max_is_max in Hm. by rewrite (Hs m), (Hs' m).
Qed.

(** C10. When the run of the second scan has three numbers, or four
    that are not paired as [a, a, c, c], and its maximum is both its
    first and its last number, the maximum is given to east and to west
    alike. *)
Theorem tie_assigns_both_sides (run_1 run_2 run_3 : list Z) (m : Z) :
  length run_2 = 3%nat ∨ (length run_2 = 4%nat ∧ ¬ pairwise_symmetric run_2) →
  is_max m run_2 →
  head run_2 = Some m →
  last run_2 = Some m →
  east_west_outcome run_1 run_2 run_3 = Ok (PInt m, PInt m).
Proof.
  intros Hlen Hmax Hhd Hlast.
  destruct (east_west_outcome_table run_1 run_2 run_3)
    as (east & west & -> & _ & H4 & H3 & _).
  destruct Hlen as [Hlen|[Hlen Hns]].
  - destruct run_2 as [|a [|b [|c [|]]]]; simplify_eq/=.
    destruct (H3 _ _ _ eq_refl _ Hmax) as [-> ->].
    unfold side. by rewrite !decide_True.
  - destruct run_2 as [|a [|b [|c [|d [|]]]]]; simplify_eq/=.
    destruct (H4 _ _ _ _ eq_refl) as [_ Hn].
    edestruct Hn as [-> ->]; [|exact Hmax|].
    + intros [? ?]. apply Hns. subst. by eexists _, _.
    + unfold side. by rewrite !decide_True.
Qed.

Lemma tie_assigns_both_sides_witness :
  east_west_outcome [] [20; 10; 20] [] = Ok (PInt 20, PInt 20).
Proof.
  apply (tie_assigns_both_sides [] [20; 10; 20] [] 20).
  - left. reflexivity.
  - split; [rewrite !elem_of_cons; auto|]. intros x. rewrite !elem_of_cons, elem_of_nil. lia.
  - reflexivity.
  - reflexivity.
Defined.

Lemma at_or_none_first_eight (segment : Segment) (i : nat) :
  (i < 8)%nat → at_or_none (first_eight segment) i = number_at segment i.
Proof.
  intros Hi. unfold at_or_none, first_eight, number_at.
  by rewrite take_lookup_8.
Qed.

Lemma peds_and_bikes_segment (text : PdfText) (key : Z) (pb : list string) :
  _get_peds_and_bikes_vol text key = Ok (Some pb) →
  ∃ segment, py_index (tail (split_maximum_hour text)) key = Ok segment
             ∧ pb = first_eight segment.
Proof.
  unfold _get_peds_and_bikes_vol.
  destruct (map first_eight (tail (split_maximum_hour text))) as [|e es] eqn:Hmap;
    [done|].
  rewrite <- Hmap. intros (e' & He' & [= <-])%bind_ok.
  by apply py_index_map in He'.
Qed.

(** C5, as stated, fails: the block of period fields of the PDF adapter
    does not take north-ped from position 0. On a segment whose tagged
    numbers are 1 to 8, [AM_north_peds_vol] is ["2"]. *)
Theorem claimed_positions_refuted :
  ¬ (∀ text l key kvs,
       pdf_period_block text l (Some key) = Ok kvs →
       assigned_by claimed_positions text l key kvs).
Proof.
  intros Hclaim.
  destruct (Hclaim morning_text AM 0 _ eq_refl) as (segment & Hseg & Hpos).
  apply Ok_inj in Hseg as <-.
  specialize (Hpos "_north_peds_vol" 0%nat).
  assert (Hin : ("_north_peds_vol", 0%nat) ∈ claimed_positions)
    by (unfold claimed_positions; rewrite !elem_of_cons; auto).
  specialize (Hpos Hin). vm_compute in Hpos. discriminate Hpos.
Qed.

(** C5, amended.  The block of period fields of the PDF adapter takes
    from the tagged numbers of its segment: position 0 for north-bike,
    1 for north-ped, 2 for west-bike, 3 for west-ped, 4 for east-ped,
    5 for east-bike, 6 for south-ped and 7 for south-bike; a position
    beyond the end of the list gives [None]. *)
Theorem source_positions_assigned (text : PdfText) (l : label) (key : Z)
  (kvs : list (string * pyval)) :
  pdf_period_block text l (Some key) = Ok kvs →
  assigned_by source_positions text l key kvs.
Proof.
  unfold pdf_period_block. intros H. binds H.
  destruct x as [pb|]; [|done]. apply Ok_inj in H as <-.
  apply peds_and_bikes_segment in Hx as (segment & Hseg & ->).
  exists segment. split; [done|]. intros suffix i Hin.
  unfold source_positions in Hin.
  repeat (apply elem_of_cons in Hin as [[= -> ->]|Hin];
          [rewrite <- at_or_none_first_eight by lia;
           destruct l; unfold field_of, dict_get, dict_update; simpl;
           by simplify_map_eq|]).
  by apply elem_of_nil in Hin.
Qed.

Lemma source_positions_assigned_witness :
  ∃ kvs, pdf_period_block morning_text AM (Some 0) = Ok kvs
         ∧ assigned_by source_positions morning_text AM 0 kvs.
Proof.
  eexists. split; [reflexivity|].
  apply (source_positions_assigned morning_text AM 0). reflexivity.
Defined.

(** ** Period detection *)

Lemma classify_slot (h : Z) : slot_of_hour h (classify h).
Proof.
  unfold slot_of_hour, classify.
  destruct (Z.leb_spec 6 h), (Z.leb_spec h 8), (Z.leb_spec 9 h),
    (Z.leb_spec h 15), (Z.leb_spec 16 h), (Z.leb_spec h 19); simpl;
    repeat split; intros; try done; try lia.
Qed.

Lemma table_key_mark (l l' : label) (i : Z) (st : detection) :
  table_key (ctl_of l (mark l' i st))
  = if decide (l = l') then Some i else table_key (ctl_of l st).
Proof. by destruct l, l'. Qed.

Lemma available_mark (l l' : label) (i : Z) (st : detection) :
  available l (mark l' i st)
  = if decide (l = l') then true else available l st.
Proof. by destruct l, l'. Qed.

Lemma truthy_str (p : string) : truthy (PStr p) = true ↔ p ≠ EmptyString.
Proof. destruct p; simpl; split; done. Qed.

Lemma digit_not_space (c : ascii) :
  PyStr.is_digit c = true →
  PyStr.is_int_space c = false ∧ Ascii.eqb c "-" = false ∧ Ascii.eqb c "+" = false
  ∧ Ascii.eqb c "_" = false.
Proof.
  destruct c as [[] [] [] [] [] [] [] []]; vm_compute; intros H;
    try discriminate H; done.
Qed.

Lemma to_int_two_digits (c1 c2 : ascii) :
  PyStr.is_digit c1 = true → PyStr.is_digit c2 = true →
  PyStr.to_int (String c1 (String c2 EmptyString))
  = Ok (10 * PyStr.digit_val c1 + PyStr.digit_val c2).
Proof.
  intros H1 H2.
  destruct (digit_not_space c1 H1) as (Hs1 & Hm1 & Hp1 & _).
  destruct (digit_not_space c2 H2) as (Hs2 & _).
  unfold PyStr.to_int, PyStr.int_strip.
  cbn [PyStr.int_lstrip]. rewrite Hs1.
  change (String.rev (String c1 (String c2 EmptyString)))
    with (String c2 (String c1 EmptyString)).
  cbn [PyStr.int_lstrip]. rewrite Hs2.
  change (String.rev (String c2 (String c1 EmptyString)))
    with (String c1 (String c2 EmptyString)).
  cbv beta iota zeta. rewrite Hm1, Hp1.
  cbn [PyStr.digits_go PyStr.count_digits]. rewrite H1, H2.
  change (1 + (1 + 0) <=? PyStr.int_max_str_digits) with true.
  cbv beta iota. by rewrite Z.mul_0_r, Z.add_0_l.
Qed.

Lemma check_mark (l l' : label) (i : Z) (st : detection) :
  check (ctl_of l (mark l' i st)) = check (ctl_of l st).
Proof. by destruct l, l'. Qed.

(** C6, as stated, fails: it is not the case that every window with a
    start hour between 6 and 8 is given to AM.  The window
    [7:30 - 8:30] has the start hour 7, and the detection step reads its
    first two characters [7:], which are not an integer: the step raises,
    no label is given, and the document is skipped. *)
Theorem one_digit_hour_not_classified :
  ¬ (∀ (i : Z) (p : string) (h : Z) (st : detection),
       start_hour p = Some h → 6 ≤ h ≤ 8 →
       ∃ st', detect_step i (Some p) st = Ok st'
              ∧ available AM st' = true
              ∧ table_key (ctl_of AM st') = Some i).
Proof.
  intros H.
  destruct (H 3 "7:30 - 8:30" 7 detection_init eq_refl ltac:(lia))
    as (st' & Hstep & _).
  vm_compute in Hstep. discriminate Hstep.
Qed.

(** C6. The detection step of the HTML and PDF adapters reads the start
    hour of a window from the first two characters of its text; a text
    that starts with two digits is read as the number they write.  For
    every non-empty window text read as the hour [h], the step gives the
    window to AM exactly when [6 <= h <= 8], to MD exactly when
    [9 <= h <= 15], to PM exactly when [16 <= h <= 19], and to no label
    exactly outside of [6..19]: the label it is given to becomes
    available with the position of the window, and nothing else
    changes. *)
Theorem window_slot_by_start_hour :
  (∀ (c1 c2 : ascii) (rest : string),
     PyStr.is_digit c1 = true → PyStr.is_digit c2 = true →
     PyStr.to_int (PyStr.take 2 (String c1 (String c2 rest)))
     = Ok (10 * PyStr.digit_val c1 + PyStr.digit_val c2))
  ∧ (∀ (i : Z) (p : string) (st : detection) (h : Z),
       p ≠ EmptyString →
       PyStr.to_int (PyStr.take 2 p) = Ok h →
       ∃ slot st', detect_step i (Some p) st = Ok st'
                   ∧ slot_of_hour h slot
                   ∧ assigned_to i slot st st').
Proof.
  split.
  - intros c1 c2 rest H1 H2. by apply to_int_two_digits.
  - intros i p st h Hp Hh.
    exists (classify h),
      (match classify h with Some l => mark l i st | None => st end).
    split; [|split].
    + unfold detect_step. apply truthy_str in Hp. by rewrite Hp, Hh.
    + apply classify_slot.
    + intros l. destruct (classify h) as [l'|].
      * rewrite available_mark, table_key_mark, check_mark.
        destruct (decide (l = l')) as [->|Hne].
        -- rewrite !decide_True by done. by repeat split.
        -- rewrite !decide_False by (by intros [= ->]). by repeat split.
      * rewrite !decide_False by done. by repeat split.
Qed.

Lemma window_slot_by_start_hour_witness :
  ∃ slot st', detect_step 2 (Some "07:00 - 08:00") detection_init = Ok st'
              ∧ slot_of_hour 7 slot
              ∧ assigned_to 2 slot detection_init st'.
Proof.
  destruct window_slot_by_start_hour as [Hread Hslot].
  apply (Hslot 2 "07:00 - 08:00" detection_init 7).
  - discriminate.
  - exact (Hread "0"%char "7"%char ":00 - 08:00" eq_refl eq_refl).
Defined.

Lemma detect_step_label (i : Z) (period : option string) (st st' : detection) :
  detect_step i period st = Ok st' →
  st' = match window_label period with
        | Some l => mark l i st
        | None => st
        end.
Proof.
  unfold detect_step, window_label. destruct period as [p|]; [|by intros [= <-]].
  destruct (truthy (PStr p)); [|by intros [= <-]].
  destruct (PyStr.to_int (PyStr.take 2 p)) as [h|]; [|done].
  by intros [= <-].
Qed.

Lemma detect_windows_keys (windows : list (Z * option string)) (st0 st : detection) :
  detect_windows windows st0 = Ok st →
  last_match_wins windows st
  ∧ ∀ l, (∀ n k p, windows !! n = Some (k, p) → window_label p ≠ Some l) →
         table_key (ctl_of l st) = table_key (ctl_of l st0).
Proof.
  revert st0. induction windows as [|[i period] windows IH]; intros st0; simpl.
  - intros [= <-]. split; [|done]. by intros l n k p Hn.
  - intros (st1 & Hstep & Hrest)%bind_ok.
    apply detect_step_label in Hstep. destruct (IH _ Hrest) as [IHlast IHnone].
    split.
    + intros l [|n] k p Hn Hl Hlater.
      * injection Hn as -> ->. rewrite IHnone.
        { rewrite Hstep, Hl, table_key_mark. by rewrite decide_True. }
        intros n k' p' Hn'. by apply (Hlater (S n) k' p'); [lia|].
      * apply (IHlast l n k p Hn Hl). intros n' k' p' Hlt Hn'.
        by apply (Hlater (S n') k' p'); [lia|].
    + intros l Hnone. rewrite IHnone.
      * rewrite Hstep. specialize (Hnone 0%nat i period eq_refl).
        destruct (window_label period) as [l'|]; [|done].
        rewrite table_key_mark. rewrite decide_False; [done|congruence].
      * intros n k p Hn. by apply (Hnone (S n) k p).
Qed.

Lemma html_detect_windows (soup : OldTMCScraper.Soup) (keys : list Z) st :
  OldTMCScraper.detect_loop soup keys st
  = detect_windows (map (fun i => (i, OldTMCScraper._get_peak_hour soup i)) keys) st.
Proof.
  revert st. induction keys as [|i keys IH]; intros st; [done|]. simpl.
  destruct (detect_step i (OldTMCScraper._get_peak_hour soup i) st); [|done].
  apply IH.
Qed.

Lemma pdf_detect_windows (i : Z) (periods : list string) st :
  pdf_detect_loop i periods st = detect_windows (windows_from i periods) st.
Proof.
  revert i st. induction periods as [|p periods IH]; intros i st; [done|].
  cbn [pdf_detect_loop windows_from detect_windows].
  destruct (detect_step i (Some p) st); [|done]. apply IH.
Qed.

Lemma available_init (l : label) : available l detection_init = false.
Proof. by destruct l. Qed.

Lemma truthy_py_and (x y : pyval) : truthy (py_and x y) = truthy x && truthy y.
Proof. unfold py_and. destruct (truthy x) eqn:Hx; [done|]. by rewrite Hx. Qed.

Lemma check_set_checks (self : WebScraper) (st : detection) (l : label) :
  check (ctl_of l (set_checks self st))
  = py_and (collect l self) (PBool (available l st)).
Proof. by destruct l. Qed.

Lemma available_set_checks (self : WebScraper) (st : detection) (l : label) :
  available l (set_checks self st) = available l st.
Proof. by destruct l. Qed.

Lemma table_key_set_checks (self : WebScraper) (st : detection) (l : label) :
  table_key (ctl_of l (set_checks self st)) = table_key (ctl_of l st).
Proof. by destruct l. Qed.

Section XlsxKeys.
Variable to_datetime : string → result timestamp.

Lemma xlsx_detect_step_label ws (i : Z) (st st' : detection) :
  xlsx_detect_step to_datetime ws i st = Ok st' →
  st' = match xlsx_window_label to_datetime ws i with
        | Some l => mark l i st
        | None => st
        end.
Proof.
  unfold xlsx_detect_step, xlsx_window_label. intros Hstep.
  destruct (_xlsx_get_peak_hour ws i) as [period|]; [|by apply Ok_inj in Hstep].
  destruct (truthy (PStr period)); [|by apply Ok_inj in Hstep].
  binds Hstep. rewrite Hx, Hx0, Hx1. apply Ok_inj in Hstep as <-.
  by repeat case_match.
Qed.

Lemma xlsx_label_anchor ws (i : Z) (l : label) :
  xlsx_window_label to_datetime ws i = Some l → i = anchor l.
Proof.
  unfold xlsx_window_label. intros H.
  repeat case_match; simplify_eq; simpl;
    match goal with
    | H : _ && _ = true |- _ => by apply andb_true_iff in H as [?%Z.eqb_eq _]
    end.
Qed.

Lemma xlsx_step_keys ws (i : Z) (st st' : detection) :
  xlsx_detect_step to_datetime ws i st = Ok st' →
  (∀ l, table_key (ctl_of l st) = None ∨ table_key (ctl_of l st) = Some (anchor l)) →
  ∀ l, table_key (ctl_of l st') = None ∨ table_key (ctl_of l st') = Some (anchor l).
Proof.
  intros ->%xlsx_detect_step_label Hst l.
  destruct (xlsx_window_label to_datetime ws i) as [l'|] eqn:Hl'; [|done].
  rewrite table_key_mark. case_decide; [|done].
  subst. right. f_equal. by apply (xlsx_label_anchor ws).
Qed.

Lemma xlsx_loop_keys ws (keys : list Z) (st st' : detection) :
  xlsx_detect_loop to_datetime ws keys st = Ok st' →
  (∀ l, table_key (ctl_of l st) = None ∨ table_key (ctl_of l st) = Some (anchor l)) →
  ∀ l, table_key (ctl_of l st') = None ∨ table_key (ctl_of l st') = Some (anchor l).
Proof.
  revert st. induction keys as [|i keys IH]; intros st; simpl.
  - by intros [= <-].
  - intros (st1 & Hstep & Hrest)%bind_ok Hst.
    apply (IH _ Hrest). by apply (xlsx_step_keys ws i st).
Qed.
End XlsxKeys.

(** C4, as stated, fails: it is not the case that the first window of a
    label gives the position kept for it.  With two morning windows on a
    PDF page, the position kept for AM is 1, that of the second. *)
Theorem first_match_overwritten :
  ¬ (∀ text st, pdf_detect text = Ok st → first_match_wins (pdf_windows text) st).
Proof.
  intros Hclaim.
  pose proof (Hclaim two_morning_windows _ eq_refl AM 0%nat 0
                (Some "07:00 - 08:00") eq_refl eq_refl) as Hfirst.
  assert (Hkept : table_key (ctl_of AM
    (match pdf_detect two_morning_windows with Ok st => st | Raise _ => detection_init end))
    = Some 1) by reflexivity.
  cbv in Hfirst. 
  assert (Some 1 = Some 0); [|done].
  apply Hfirst. intros n' k' p' Hlt. lia.
Qed.

(** C4, amended.  In the HTML and PDF adapters the position kept for a
    label is that of the last detected window classified to it: a later
    window of the same label overwrites the earlier one.  In the
    spreadsheet adapter the position of a label is either unset or its
    one fixed anchor (32, 62, 92). *)
Theorem last_match_kept :
  (∀ soup st, OldTMCScraper.detect soup = Ok st →
     last_match_wins (html_windows soup) st)
  ∧ (∀ text st, pdf_detect text = Ok st →
       last_match_wins (pdf_windows text) st)
  ∧ (∀ to_datetime ws st, xlsx_detect to_datetime ws = Ok st →
       ∀ l, table_key (ctl_of l st) = None
            ∨ table_key (ctl_of l st) = Some (anchor l)).
Proof.
  split; [|split].
  - intros soup st Hst. unfold OldTMCScraper.detect in Hst.
    rewrite html_detect_windows in Hst. by apply detect_windows_keys in Hst as [? _].
  - intros text st Hst. unfold pdf_detect in Hst.
    rewrite pdf_detect_windows in Hst. by apply detect_windows_keys in Hst as [? _].
  - intros to_datetime ws st Hst. apply (xlsx_loop_keys to_datetime ws _ _ _ Hst).
    intros l. left. by destruct l.
Qed.

Lemma last_match_kept_witness :
  ∃ st, pdf_detect two_morning_windows = Ok st
        ∧ table_key (ctl_of AM st) = Some 1.
Proof.
  eexists. split; [reflexivity|].
  apply (proj1 (proj2 last_match_kept) two_morning_windows _ eq_refl
           AM 1%nat 1 (Some "08:00 - 09:00") eq_refl eq_refl).
  intros [|[|[|n']]] k' p' Hlt Hn'; try lia; discriminate Hn'.
Defined.

(** ** The period filters *)

Lemma set_filters_all_true (period_filters : list string)
  (options : gmap string pyval) :
  all_true options → all_true (_set_filters options period_filters).
Proof.
  revert options. induction period_filters as [|k ks IH]; intros options Hall;
    [done|].
  unfold _set_filters. simpl. apply IH. case_decide; [|done].
  destruct Hall as (Ha & Hp & Hm). unfold all_true.
  rewrite !lookup_insert. repeat case_decide; by subst.
Qed.

Lemma init_collects_everything (period_filters : option (list string))
  (l : label) :
  collect l (WebScraper_init period_filters) = PBool true.
Proof.
  assert (Hall : all_true default_filter_options).
  { repeat split; vm_compute; reflexivity. }
  unfold WebScraper_init.
  destruct period_filters as [[|k ks]|];
    [destruct l; vm_compute; reflexivity| |destruct l; vm_compute; reflexivity].
  destruct (set_filters_all_true (k :: ks) _ Hall) as (Ha & Hp & Hm).
  destruct l; unfold _apply_filters, collect, dict_get;
    cbn [collect_am collect_pm collect_md]; by rewrite ?Ha, ?Hp, ?Hm.
Qed.

(** ** Record assembly *)

Section Collect.

Variable block : label → option Z → result (list (string * pyval)).
Hypothesis block_keys :
  ∀ l position kvs, block l position = Ok kvs → kvs.*1 = period_keys l.

Lemma collect_periods_is_Some st ls tmc0 tmc (k : string) :
  collect_periods block st ls tmc0 = Ok tmc →
  is_Some (tmc !! k) ↔
    is_Some (tmc0 !! k)
    ∨ ∃ l, l ∈ ls ∧ truthy (check (ctl_of l st)) = true ∧ k ∈ period_keys l.
Proof.
  revert tmc0. induction ls as [|l ls IH]; intros tmc0; simpl.
  - intros [= ->]. split; [auto|]. intros [?|(l & Hl & _)]; [done|].
    by apply elem_of_nil in Hl.
  - destruct (truthy (check (ctl_of l st))) eqn:Hcheck.
    + destruct (block l (table_key (ctl_of l st))) as [kvs|] eqn:Hblock; [|done].
      simpl. intros Htmc. rewrite (IH _ Htmc), dict_update_is_Some.
      rewrite (block_keys _ _ _ Hblock). split.
      * intros [[?|?]|(l' & ? & ? & ?)]; [right; exists l|by left|right; exists l'];
          rewrite elem_of_cons; auto.
      * intros [?|(l' & [->|?]%elem_of_cons & ? & ?)]; [by left; right|by left; left|].
        right. by exists l'.
    + intros Htmc. rewrite (IH _ Htmc). split.
      * intros [?|(l' & ? & ? & ?)]; [by left|]. right. exists l'.
        rewrite elem_of_cons. auto.
      * intros [?|(l' & [->|?]%elem_of_cons & ? & ?)]; [by left|congruence|].
        right. by exists l'.
Qed.

Lemma collect_periods_other st ls tmc0 tmc (k : string) :
  collect_periods block st ls tmc0 = Ok tmc →
  (∀ l, k ∉ period_keys l) →
  tmc !! k = tmc0 !! k.
Proof.
  intros Htmc Hk. revert tmc0 Htmc. induction ls as [|l ls IH]; intros tmc0; simpl.
  - by intros [= ->].
  - destruct (truthy (check (ctl_of l st))); [|by apply IH].
    destruct (block l (table_key (ctl_of l st))) as [kvs|] eqn:Hblock; [|done].
    simpl. intros Htmc. rewrite (IH _ Htmc).
    apply dict_update_lookup_notin. rewrite (block_keys _ _ _ Hblock). apply Hk.
Qed.

End Collect.

Lemma html_block_keys soup l position kvs :
  OldTMCScraper.period_block soup l position = Ok kvs →
  kvs.*1 = period_keys l.
Proof.
  unfold OldTMCScraper.period_block. destruct position as [key|]; [|done].
  intros H. binds H. injection H as <-. by destruct l.
Qed.

Lemma xlsx_block_keys ws l position kvs :
  xlsx_period_block ws l position = Ok kvs → kvs.*1 = period_keys l.
Proof.
  unfold xlsx_period_block. destruct position as [key|]; [|done].
  intros H. injection H as <-. by destruct l.
Qed.

Lemma pdf_block_keys text l position kvs :
  pdf_period_block text l position = Ok kvs → kvs.*1 = period_keys l.
Proof.
  unfold pdf_period_block. destruct position as [key|]; [|done].
  intros H. binds H. destruct x as [pb|]; [|done].
  injection H as <-. by destruct l.
Qed.

(** What every adapter does after the detection: the head of the record,
    then the period blocks. *)
Lemma assembled_record block date weather type self st tmc :
  (∀ l position kvs, block l position = Ok kvs → kvs.*1 = period_keys l) →
  collect_periods block (set_checks self st) [AM; MD; PM]
    (record_head date weather type self (set_checks self st)) = Ok tmc →
  (∀ l, tmc !! (tag l +:+ "_available") = Some (PBool (available l st))
        ∧ tmc !! (tag l +:+ "_scraped") = Some (collect l self))
  ∧ (∀ l k, k ∈ period_keys l →
       (is_Some (tmc !! k) ↔
          truthy (collect l self) && available l st = true)).
Proof.
  intros Hkeys Htmc. split.
  - intros l. destruct (flag_keys_document l) as [Ha Hs].
    rewrite !(collect_periods_other _ Hkeys _ _ _ _ _ Htmc)
      by (intros l'; by apply document_keys_not_period).
    rewrite record_head_available, record_head_scraped.
    by rewrite available_set_checks.
  - intros l k Hk.
    rewrite (collect_periods_is_Some _ Hkeys _ _ _ _ k Htmc), record_head_keys.
    split.
    + intros [Hdoc|(l' & _ & Hcheck & Hk')].
      * by destruct (period_keys_not_document l k Hk).
      * rewrite (period_keys_disjoint _ _ _ Hk Hk').
        by rewrite check_set_checks, truthy_py_and in Hcheck.
    + intros Hflags. right. exists l. split; [destruct l; rewrite !elem_of_cons; auto|].
      split; [|done]. by rewrite check_set_checks, truthy_py_and.
Qed.

Lemma scrape_assembled to_datetime self doc tmc :
  scrape to_datetime self doc = Some tmc →
  ∃ block date weather type st,
    (∀ l position kvs, block l position = Ok kvs → kvs.*1 = period_keys l)
    ∧ collect_periods block (set_checks self st) [AM; MD; PM]
        (record_head date weather type self (set_checks self st)) = Ok tmc.
Proof.
  destruct doc as [soup|wb|text]; simpl; intros H%catch_some.
  - unfold OldTMCScraper.scrape_body in H. binds H.
    exists (OldTMCScraper.period_block soup), x0, x1, x2, x.
    split; [apply html_block_keys|done].
  - unfold read_xlsx_body in H. destruct (wb !! "Summary") as [ws|]; [|done].
    binds H. exists (xlsx_period_block ws), (_xlsx_get_date ws), x0, (_xlsx_get_type ws), x.
    split; [apply xlsx_block_keys|done].
  - unfold read_pdf_body in H. binds H.
    exists (pdf_period_block text), x0, (_get_weather text), (_get_type text), x.
    split; [apply pdf_block_keys|done].
Qed.

(** C1. In the record of every processed document, of any of the three
    formats, each of the thirteen period fields of a label (the peak hour
    and the twelve directional volumes) is present if and only if the
    availability flag and the scraped flag of that label both hold; when
    either does not hold the key is absent from the record, not stored
    with a zero or with [None]. *)
Theorem period_fields_iff_flags to_datetime (self : WebScraper) (doc : document)
  (tmc : gmap string pyval) :
  scrape to_datetime self doc = Some tmc →
  ∀ l k, k ∈ period_keys l →
    (is_Some (tmc !! k) ↔
       truthy (dict_get tmc (tag l +:+ "_available")) = true
       ∧ truthy (dict_get tmc (tag l +:+ "_scraped")) = true)
    ∧ (tmc !! k = None ↔
       truthy (dict_get tmc (tag l +:+ "_available")) = false
       ∨ truthy (dict_get tmc (tag l +:+ "_scraped")) = false).
Proof.
  intros (block & date & weather & type & st & Hkeys & Htmc)%scrape_assembled l k Hk.
  destruct (assembled_record _ _ _ _ _ _ _ Hkeys Htmc) as [Hflags Hfields].
  destruct (Hflags l) as [Ha Hs]. unfold dict_get. rewrite Ha, Hs. simpl.
  specialize (Hfields l k Hk). rewrite andb_true_iff in Hfields.
  split; [rewrite Hfields; tauto|].
  rewrite eq_None_not_Some, Hfields.
  destruct (truthy (collect l self)), (available l st); intuition congruence.
Qed.

Lemma period_fields_iff_flags_witness :
  (is_Some (default ∅ (scrape clock all_periods (Pdf morning_text))
              !! "AM_peak_hour") ↔
     truthy (dict_get (default ∅ (scrape clock all_periods (Pdf morning_text)))
               "AM_available") = true
     ∧ truthy (dict_get (default ∅ (scrape clock all_periods (Pdf morning_text)))
                 "AM_scraped") = true)
  ∧ (default ∅ (scrape clock all_periods (Pdf morning_text))
       !! "AM_peak_hour" = None ↔
     truthy (dict_get (default ∅ (scrape clock all_periods (Pdf morning_text)))
               "AM_available") = false
     ∨ truthy (dict_get (default ∅ (scrape clock all_periods (Pdf morning_text)))
                 "AM_scraped") = false).
Proof.
  apply (period_fields_iff_flags clock all_periods (Pdf morning_text) _
           eq_refl AM "AM_peak_hour").
  unfold period_keys, period_suffixes. simpl. rewrite elem_of_cons. by left.
Defined.

(** C2. The period filters exclude nothing: whatever list is given to
    [__init__], every label is collected.  With the filter [['AM']], and
    with the empty filter, the record of a PDF whose only peak window is a
    midday one has [MD_scraped = True] and carries the midday block. *)
Theorem unrequested_period_is_scraped :
  (∀ period_filters l, collect l (WebScraper_init period_filters) = PBool true)
  ∧ (∃ tmc, _read_pdf clock (WebScraper_init (Some ["AM"])) midday_text = Some tmc
            ∧ tmc !! "MD_scraped" = Some (PBool true)
            ∧ tmc !! "MD_peak_hour" = Some (PStr "12:00 - 13:00"))
  ∧ (∃ tmc, _read_pdf clock (WebScraper_init (Some [])) midday_text = Some tmc
            ∧ tmc !! "MD_scraped" = Some (PBool true)
            ∧ tmc !! "MD_peak_hour" = Some (PStr "12:00 - 13:00")).
Proof.
  split; [apply init_collects_everything|].
  split.
  - exists (default ∅ (_read_pdf clock (WebScraper_init (Some ["AM"])) midday_text)).
    repeat split; vm_compute; reflexivity.
  - exists (default ∅ (_read_pdf clock (WebScraper_init (Some [])) midday_text)).
    repeat split; vm_compute; reflexivity.
Qed.

(** C7. A located field without digits is not absorbed by its locator:
    on a page whose morning table has a north bikes row reading ["Bikes"],
    [_get_north_bikes_vol] raises [IndexError] and [_scrape_tmc] returns
    no record, where the same page with the row ["Bikes 3"] gives a record
    (whose north vehicle volume, located by a guarded sibling, is
    [None]). *)
Theorem missing_digits_skip_document :
  OldTMCScraper._get_north_bikes_vol (morning_soup "Bikes") 2 = Raise IndexError
  ∧ OldTMCScraper._scrape_tmc clock all_periods (morning_soup "Bikes") = None
  ∧ (∃ tmc, OldTMCScraper._scrape_tmc clock all_periods (morning_soup "Bikes 3")
            = Some tmc
            ∧ tmc !! "AM_north_bikes_vol" = Some (PStr "3")
            ∧ tmc !! "AM_north_veh_vol" = Some PNone).
Proof.
  split; [vm_compute; reflexivity|]. split; [vm_compute; reflexivity|].
  exists (default ∅ (OldTMCScraper._scrape_tmc clock all_periods (morning_soup "Bikes 3"))).
  repeat split; vm_compute; reflexivity.
Qed.

(** ** Availability in the spreadsheet adapter *)

Lemma append_nonempty (a b : string) (c : ascii) :
  String.eqb (a +:+ String c b) "" = false.
Proof. by destruct a. Qed.

Lemma xlsx_peak_hour_truthy ws (i : Z) (period : string) :
  _xlsx_get_peak_hour ws i = Some period → truthy (PStr period) = true.
Proof.
  unfold _xlsx_get_peak_hour. case_match; [|done]. intros <-%(inj Some).
  unfold truthy.
  match goal with
  | |- negb (String.eqb (?a +:+ _ +:+ ?b) _) = true =>
      change (negb (String.eqb (a +:+ String " " ("- " +:+ b)) "") = true)
  end.
  by rewrite append_nonempty.
Qed.

Section XlsxAvailable.
Variable to_datetime : string → result timestamp.

Lemma xlsx_label_one_hour ws (l : label) :
  xlsx_window_label to_datetime ws (anchor l) = Some l
  ↔ one_hour_window to_datetime ws (anchor l).
Proof.
  unfold xlsx_window_label, one_hour_window. split.
  - destruct (_xlsx_get_peak_hour ws (anchor l)) as [period|]; [|done].
    destruct (truthy (PStr period)); [|done].
    destruct (to_datetime (PyStr.take_last 5 period)) as [t_end|] eqn:He; [|done].
    destruct (to_datetime (PyStr.take 6 period)) as [t_start|] eqn:Hs; [|done].
    destruct (one_hour t_end t_start) as [[]|] eqn:Hcheck;
      [|by rewrite !andb_false_r|done].
    intros _.
    destruct t_end as [|e|e], t_start as [|s|s]; try done;
      apply Ok_inj, Z.eqb_eq in Hcheck;
      exists period, e, s; split; [done| |done| ]; (split; [|done]).
    + by left.
    + by right.
  - intros (period & e & s & Hperiod & [[He Hs]|[He Hs]] & Hdiff);
      rewrite Hperiod, (xlsx_peak_hour_truthy _ _ _ Hperiod), He, Hs;
      unfold one_hour; apply Z.eqb_eq in Hdiff; rewrite Hdiff; by destruct l.
Qed.

Lemma xlsx_loop_available ws (keys : list Z) (st st' : detection) (l : label) :
  xlsx_detect_loop to_datetime ws keys st = Ok st' →
  available l st' = true ↔
    available l st = true
    ∨ ∃ i, i ∈ keys ∧ xlsx_window_label to_datetime ws i = Some l.
Proof.
  revert st. induction keys as [|i keys IH]; intros st; simpl.
  - intros [= <-]. split; [auto|]. intros [?|(i & Hi & _)]; [done|].
    by apply elem_of_nil in Hi.
  - intros (st1 & ->%xlsx_detect_step_label & Hrest)%bind_ok.
    rewrite (IH _ Hrest). clear IH Hrest.
    destruct (xlsx_window_label to_datetime ws i) as [l'|] eqn:Hl'.
    + rewrite available_mark. case_decide as Hll'.
      * subst l'. split; [|by left]. intros _. right. exists i.
        rewrite elem_of_cons. auto.
      * split.
        -- intros [?|(j & Hj & Hlj)]; [by left|]. right. exists j.
           rewrite elem_of_cons. auto.
        -- intros [?|(j & [->|Hj]%elem_of_cons & Hlj)]; [by left|congruence|].
           right. by exists j.
    + split.
      * intros [?|(j & Hj & Hlj)]; [by left|]. right. exists j.
        rewrite elem_of_cons. auto.
      * intros [?|(j & [->|Hj]%elem_of_cons & Hlj)]; [by left|congruence|].
        right. by exists j.
Qed.

Lemma xlsx_detect_available ws (st : detection) (l : label) :
  xlsx_detect to_datetime ws = Ok st →
  available l st = true ↔ one_hour_window to_datetime ws (anchor l).
Proof.
  intros Hst. rewrite (xlsx_loop_available ws _ _ _ l Hst), available_init.
  rewrite <- xlsx_label_one_hour. split.
  - intros [?|(i & _ & Hi)]; [done|].
    by rewrite <- (xlsx_label_anchor to_datetime ws i l Hi).
  - intros Hl. right. exists (anchor l). split; [|done].
    destruct l; rewrite !elem_of_cons; auto.
Qed.

End XlsxAvailable.

(** C8. In the record of a workbook, the availability flag of a label
    is a boolean, and it is [True] exactly when the window read at the
    fixed anchor of the label (32 for AM, 62 for MD, 92 for PM) ends
    3600 seconds after it starts; a window of any other duration leaves
    the flag [False], whatever the cells hold. *)
Theorem spreadsheet_one_hour_availability to_datetime (self : WebScraper)
  (wb : gmap string (gmap string cell_value)) (ws : gmap string cell_value)
  (tmc : gmap string pyval) :
  _read_xlsx to_datetime self wb = Some tmc →
  wb !! "Summary" = Some ws →
  ∀ l, ∃ b, tmc !! (tag l +:+ "_available") = Some (PBool b)
            ∧ (b = true ↔ one_hour_window to_datetime ws (anchor l)).
Proof.
  intros H%catch_some Hws l. unfold read_xlsx_body in H. rewrite Hws in H.
  binds H.
  destruct (assembled_record (xlsx_period_block ws) (_xlsx_get_date ws) x0
              (_xlsx_get_type ws) self x tmc (xlsx_block_keys ws) H)
    as [Hflags _].
  exists (available l x). split; [apply Hflags|].
  by apply xlsx_detect_available.
Qed.

Lemma spreadsheet_one_hour_availability_witness :
  ∃ b, default ∅ (_read_xlsx clock all_periods morning_workbook)
         !! "AM_available" = Some (PBool b)
       ∧ (b = true ↔ one_hour_window clock morning_sheet 32).
Proof.
  apply (spreadsheet_one_hour_availability clock all_periods morning_workbook
           morning_sheet _ eq_refl eq_refl AM).
Defined.

(** * Further properties *)

Lemma positioned_init : positioned detection_init.
Proof. intros l. destruct l; simpl; split; intros H; try done; by destruct H. Qed.

Lemma positioned_mark (l : label) (i : Z) (st : detection) :
  positioned st → positioned (mark l i st).
Proof.
  intros Hst l'. rewrite available_mark, table_key_mark.
  case_decide; [|apply Hst]. split; [by eexists|done].
Qed.

Lemma detect_windows_positioned windows st0 st :
  detect_windows windows st0 = Ok st → positioned st0 → positioned st.
Proof.
  revert st0. induction windows as [|[i p] windows IH]; intros st0; simpl.
  - by intros ->%Ok_inj.
  - intros (st1 & ->%detect_step_label & Hrest)%bind_ok Hst0.
    apply (IH _ Hrest). destruct (window_label p); [|done].
    by apply positioned_mark.
Qed.

Lemma xlsx_loop_positioned to_datetime ws keys st0 st :
  xlsx_detect_loop to_datetime ws keys st0 = Ok st → positioned st0 → positioned st.
Proof.
  revert st0. induction keys as [|i keys IH]; intros st0; simpl.
  - by intros ->%Ok_inj.
  - intros (st1 & ->%xlsx_detect_step_label & Hrest)%bind_ok Hst0.
    apply (IH _ Hrest). destruct (xlsx_window_label to_datetime ws i); [|done].
    by apply positioned_mark.
Qed.

Lemma checked_position_helper to_datetime (self : WebScraper)
  (doc : document) (st : detection) :
  detect_of to_datetime doc = Ok st →
  positioned st
  ∧ ∀ l, truthy (check (ctl_of l (set_checks self st))) = true →
         is_Some (table_key (ctl_of l (set_checks self st))).
Proof.
  intros Hdet.
  assert (Hpos : positioned st).
  { destruct doc as [soup|wb|text]; simpl in Hdet.
    - unfold OldTMCScraper.detect in Hdet. rewrite html_detect_windows in Hdet.
      apply (detect_windows_positioned _ _ _ Hdet positioned_init).
    - destruct (wb !! "Summary") as [ws|]; [|done].
      apply (xlsx_loop_positioned _ _ _ _ _ Hdet positioned_init).
    - unfold pdf_detect in Hdet. rewrite pdf_detect_windows in Hdet.
      apply (detect_windows_positioned _ _ _ Hdet positioned_init). }
  split; [done|]. intros l.
  rewrite check_set_checks, truthy_py_and, table_key_set_checks.
  intros [_ Ha]%andb_true_iff. by apply Hpos.
Qed.

(** X1. After the period detection of a document of any format, a label is
    available exactly when a position is kept for it; so every label
    whose fields are collected has a position, and the locators are never
    called with [None]. *)
Theorem checked_period_has_position to_datetime (self : WebScraper)
  (doc : document) (st : detection) :
  detect_of to_datetime doc = Ok st →
  positioned st
  ∧ ∀ l, truthy (check (ctl_of l (set_checks self st))) = true →
         is_Some (table_key (ctl_of l (set_checks self st))).
Proof. apply checked_position_helper. Qed.

Lemma checked_period_has_position_witness :
  is_Some (table_key (ctl_of AM (set_checks all_periods
     (match pdf_detect morning_text with Ok st => st | Raise _ => detection_init end)))).
Proof.
  apply (checked_period_has_position clock all_periods (Pdf morning_text) _ eq_refl).
  vm_compute. reflexivity.
Defined.

Lemma detect_windows_sound windows st0 st l k :
  detect_windows windows st0 = Ok st →
  table_key (ctl_of l st) = Some k →
  table_key (ctl_of l st0) = Some k
  ∨ ∃ n p, windows !! n = Some (k, p) ∧ window_label p = Some l.
Proof.
  revert st0. induction windows as [|[i p] windows IH]; intros st0; simpl.
  - intros ->%Ok_inj. by left.
  - intros (st1 & ->%detect_step_label & Hrest)%bind_ok Hk.
    destruct (IH _ Hrest Hk) as [Hk1|(n & p' & Hn & Hp')].
    + destruct (window_label p) as [l'|] eqn:Hl'; [|by left].
      rewrite table_key_mark in Hk1. case_decide; [|by left].
      subst l'. injection Hk1 as ->. right. by exists 0%nat, p.
    + right. by exists (S n), p'.
Qed.

Lemma windows_from_lookup (i : Z) (periods : list string) (n : nat) k p :
  windows_from i periods !! n = Some (k, p) →
  k = i + Z.of_nat n ∧ ∃ period, p = Some period ∧ periods !! n = Some period.
Proof.
  revert i n. induction periods as [|q periods IH]; intros i n; [done|].
  destruct n as [|n]; simpl.
  - intros [= <- <-]. split; [lia|]. by exists q.
  - intros H. destruct (IH _ _ H) as [-> Hp]. split; [lia|done].
Qed.

Lemma html_kept_position soup st l k :
  OldTMCScraper.detect soup = Ok st →
  table_key (ctl_of l st) = Some k →
  (k = 2 ∨ k = 3 ∨ k = 4)
  ∧ window_label (OldTMCScraper._get_peak_hour soup k) = Some l.
Proof.
  intros Hdet Hk. unfold OldTMCScraper.detect in Hdet.
  rewrite html_detect_windows in Hdet.
  destruct (detect_windows_sound _ _ _ _ _ Hdet Hk) as [Hinit|(n & p & Hn & Hp)];
    [by destruct l|].
  destruct n as [|[|[|n]]]; simpl in Hn; try done;
    injection Hn as <- <-; auto.
Qed.

Lemma pdf_kept_position text st l k :
  pdf_detect text = Ok st →
  table_key (ctl_of l st) = Some k →
  0 ≤ k < Z.of_nat (length (maximum_hour text))
  ∧ ∃ period, maximum_hour text !! Z.to_nat k = Some period
              ∧ window_label (Some period) = Some l.
Proof.
  intros Hdet Hk. unfold pdf_detect in Hdet.
  rewrite pdf_detect_windows in Hdet.
  destruct (detect_windows_sound _ _ _ _ _ Hdet Hk) as [Hinit|(n & p & Hn & Hp)];
    [by destruct l|].
  apply windows_from_lookup in Hn as [-> (period & -> & Hperiod)].
  pose proof (lookup_lt_Some _ _ _ Hperiod).
  split; [lia|]. exists period. split; [|done].
  by replace (Z.to_nat (0 + Z.of_nat n)) with n by lia.
Qed.

(** X2. The position kept for a label is that of a detected window of that
    label: in the HTML adapter one of the table keys 2, 3, 4 whose peak
    hour classifies to the label, in the PDF adapter a valid index into
    the list of peak windows whose window classifies to the label. *)
Theorem kept_position_is_labelled_window :
  (∀ soup st l k, OldTMCScraper.detect soup = Ok st →
     table_key (ctl_of l st) = Some k →
     (k = 2 ∨ k = 3 ∨ k = 4)
     ∧ window_label (OldTMCScraper._get_peak_hour soup k) = Some l)
  ∧ (∀ text st l k, pdf_detect text = Ok st →
       table_key (ctl_of l st) = Some k →
       0 ≤ k < Z.of_nat (length (maximum_hour text))
       ∧ ∃ period, maximum_hour text !! Z.to_nat k = Some period
                   ∧ window_label (Some period) = Some l).
Proof. split; [apply html_kept_position|apply pdf_kept_position]. Qed.

Lemma kept_position_is_labelled_window_witness :
  0 ≤ 1 < Z.of_nat (length (maximum_hour two_morning_windows))
  ∧ ∃ period, maximum_hour two_morning_windows !! Z.to_nat 1 = Some period
              ∧ window_label (Some period) = Some AM.
Proof.
  apply (proj2 kept_position_is_labelled_window two_morning_windows _ AM 1 eq_refl).
  reflexivity.
Defined.

Lemma dict_update_lookup_in (d d' : gmap string pyval) kvs (k : string) :
  k ∈ kvs.*1 → dict_update d kvs !! k = dict_update d' kvs !! k.
Proof.
  revert d d'. induction kvs as [|[k' v] kvs IH]; intros d d' Hk.
  - by apply elem_of_nil in Hk.
  - unfold dict_update. simpl.
    fold (dict_update (<[k':=v]> d) kvs). fold (dict_update (<[k':=v]> d') kvs).
    destruct (decide (k ∈ kvs.*1)) as [Hin|Hnotin]; [by apply IH|].
    simpl in Hk. apply elem_of_cons in Hk as [->|?]; [|done].
    rewrite !dict_update_lookup_notin by done. by rewrite !lookup_insert_eq.
Qed.

Section CollectLookup.

Variable block : label → option Z → result (list (string * pyval)).
Hypothesis block_keys :
  ∀ l position kvs, block l position = Ok kvs → kvs.*1 = period_keys l.

Lemma collect_periods_lookup st ls tmc0 tmc (l : label) (k : string) :
  NoDup ls →
  collect_periods block st ls tmc0 = Ok tmc →
  k ∈ period_keys l →
  (l ∈ ls → truthy (check (ctl_of l st)) = true →
     ∃ kvs, block l (table_key (ctl_of l st)) = Ok kvs
            ∧ tmc !! k = dict_update ∅ kvs !! k)
  ∧ (l ∉ ls ∨ truthy (check (ctl_of l st)) = false → tmc !! k = tmc0 !! k).
Proof.
  intros Hnodup Htmc Hk. revert tmc0 Htmc.
  induction Hnodup as [|l0 ls Hl0 Hnodup IH]; intros tmc0; simpl.
  - intros ->%Ok_inj. split; [|done]. intros Hin. by apply elem_of_nil in Hin.
  - destruct (truthy (check (ctl_of l0 st))) eqn:Hcheck.
    + intros (kvs & Hblock & Hrest)%bind_ok.
      destruct (IH _ Hrest) as [IHin IHout].
      pose proof (block_keys _ _ _ Hblock) as Hkeys.
      split.
      * intros [->|Hin]%elem_of_cons Hl; [|by apply IHin].
        exists kvs. split; [done|]. rewrite IHout by auto.
        apply dict_update_lookup_in. by rewrite Hkeys.
      * intros Hout. rewrite IHout.
        -- apply dict_update_lookup_notin. rewrite Hkeys. intros Hk'.
           pose proof (period_keys_disjoint _ _ _ Hk Hk') as ->.
           destruct Hout as [Hout|Hout]; [|congruence].
           apply Hout, elem_of_cons; auto.
        -- destruct Hout as [Hout|Hout]; [|auto]. left. intros Hin.
           apply Hout, elem_of_cons; auto.
    + intros Hrest. destruct (IH _ Hrest) as [IHin IHout]. split.
      * intros [->|Hin]%elem_of_cons Hl; [congruence|by apply IHin].
      * intros Hout. apply IHout. destruct Hout as [Hout|Hout]; [|auto].
        left. intros Hin. apply Hout, elem_of_cons; auto.
Qed.

End CollectLookup.

Lemma labels_nodup : NoDup [AM; MD; PM].
Proof. apply (bool_decide_unpack _). vm_compute. exact I. Qed.

Lemma labels_all (l : label) : l ∈ [AM; MD; PM].
Proof. destruct l; rewrite !elem_of_cons; auto. Qed.

Lemma record_head_not_period date weather type self st l (k : string) :
  k ∈ period_keys l → record_head date weather type self st !! k = None.
Proof.
  intros Hk. apply eq_None_not_Some. rewrite record_head_keys.
  by apply period_keys_not_document with l.
Qed.

(** A period field of an assembled record comes from the block of its label. *)
Lemma assembled_field block date weather type self st tmc l (k : string) v :
  (∀ l position kvs, block l position = Ok kvs → kvs.*1 = period_keys l) →
  collect_periods block (set_checks self st) [AM; MD; PM]
    (record_head date weather type self (set_checks self st)) = Ok tmc →
  k ∈ period_keys l →
  tmc !! k = Some v →
  available l st = true
  ∧ ∃ kvs, block l (table_key (ctl_of l st)) = Ok kvs
           ∧ dict_update ∅ kvs !! k = Some v.
Proof.
  intros Hkeys Htmc Hk Hv.
  destruct (collect_periods_lookup block Hkeys _ _ _ _ l k labels_nodup Htmc Hk)
    as [Hin Hout].
  destruct (truthy (check (ctl_of l (set_checks self st)))) eqn:Hcheck.
  - destruct (Hin (labels_all l) eq_refl) as (kvs & Hblock & Hlookup).
    rewrite check_set_checks, truthy_py_and in Hcheck.
    apply andb_true_iff in Hcheck as [_ Ha]. split; [done|].
    exists kvs. rewrite table_key_set_checks in Hblock. split; [done|].
    by rewrite <- Hlookup.
  - rewrite Hout in Hv by auto.
    by rewrite (record_head_not_period _ _ _ _ _ l) in Hv.
Qed.

Lemma html_assembled to_datetime self soup tmc :
  OldTMCScraper._scrape_tmc to_datetime self soup = Some tmc →
  ∃ st date weather type,
    OldTMCScraper.detect soup = Ok st
    ∧ collect_periods (OldTMCScraper.period_block soup) (set_checks self st)
        [AM; MD; PM]
        (record_head date weather type self (set_checks self st)) = Ok tmc.
Proof.
  intros H%catch_some. unfold OldTMCScraper.scrape_body in H. binds H.
  by exists x, x0, x1, x2.
Qed.

Lemma pdf_assembled to_datetime self text tmc :
  _read_pdf to_datetime self text = Some tmc →
  ∃ st date,
    pdf_detect text = Ok st
    ∧ collect_periods (pdf_period_block text) (set_checks self st) [AM; MD; PM]
        (record_head date (_get_weather text) (_get_type text) self
           (set_checks self st)) = Ok tmc.
Proof.
  intros H%catch_some. unfold read_pdf_body in H. binds H. by exists x, x0.
Qed.

Lemma xlsx_assembled to_datetime self wb ws tmc :
  _read_xlsx to_datetime self wb = Some tmc →
  wb !! "Summary" = Some ws →
  ∃ st weather,
    xlsx_detect to_datetime ws = Ok st
    ∧ collect_periods (xlsx_period_block ws) (set_checks self st) [AM; MD; PM]
        (record_head (_xlsx_get_date ws) weather (_xlsx_get_type ws) self
           (set_checks self st)) = Ok tmc.
Proof.
  intros H%catch_some Hws. unfold read_xlsx_body in H. rewrite Hws in H.
  binds H. by exists x, x0.
Qed.

Lemma peak_hour_key (l : label) : tag l +:+ "_peak_hour" ∈ period_keys l.
Proof. destruct l; apply (bool_decide_unpack _); vm_compute; exact I. Qed.

Lemma py_index_lookup {A} (l : list A) (i : Z) (x : A) :
  py_index l i = Ok x → 0 ≤ i → l !! Z.to_nat i = Some x.
Proof.
  unfold py_index. intros H Hi.
  replace (i <? 0) with false in H by (symmetry; apply Z.ltb_ge; lia).
  destruct (_ && _); [|done]. destruct (l !! Z.to_nat i); [|done].
  by apply Ok_inj in H as ->.
Qed.

(** X3. In every HTML or PDF record, the peak hour stored under a label is a
    text whose start hour classifies to that label. *)
Theorem peak_hour_belongs_to_label :
  (∀ to_datetime self soup tmc l v,
     OldTMCScraper._scrape_tmc to_datetime self soup = Some tmc →
     tmc !! (tag l +:+ "_peak_hour") = Some v →
     ∃ p, v = PStr p ∧ window_label (Some p) = Some l)
  ∧ (∀ to_datetime self text tmc l v,
       _read_pdf to_datetime self text = Some tmc →
       tmc !! (tag l +:+ "_peak_hour") = Some v →
       ∃ p, v = PStr p ∧ window_label (Some p) = Some l).
Proof.
  split.
  - intros to_datetime self soup tmc l v
      (st & date & weather & type & Hdet & Htmc)%html_assembled Hv.
    destruct (assembled_field _ _ _ _ _ _ _ _ _ _
                (html_block_keys soup) Htmc (peak_hour_key l) Hv)
      as (_ & kvs & Hblock & Hfield).
    unfold OldTMCScraper.period_block in Hblock.
    destruct (table_key (ctl_of l st)) as [key|] eqn:Hkey; [|done].
    destruct (html_kept_position soup st l key Hdet Hkey)
      as [_ Hlabel].
    binds Hblock. apply Ok_inj in Hblock as <-.
    assert (Hval : v = of_text (OldTMCScraper._get_peak_hour soup key)).
    { destruct l; unfold dict_update in Hfield; simpl in Hfield;
        by simplify_map_eq. }
    destruct (OldTMCScraper._get_peak_hour soup key) as [p|]; [|done].
    by exists p.
  - intros to_datetime self text tmc l v (st & date & Hdet & Htmc)%pdf_assembled Hv.
    destruct (assembled_field _ _ _ _ _ _ _ _ _ _
                (pdf_block_keys text) Htmc (peak_hour_key l) Hv)
      as (_ & kvs & Hblock & Hfield).
    unfold pdf_period_block in Hblock.
    destruct (table_key (ctl_of l st)) as [key|] eqn:Hkey; [|done].
    destruct (pdf_kept_position text st l key Hdet Hkey)
      as [Hrange (period & Hperiod & Hlabel)].
    binds Hblock. destruct x as [pb|]; [|done]. apply Ok_inj in Hblock as <-.
    assert (Hval : v = x1).
    { destruct l; unfold dict_update in Hfield; simpl in Hfield;
        by simplify_map_eq. }
    subst v. unfold _get_peak_hour in Hx1.
    destruct (maximum_hour text) as [|e es] eqn:Hmax; [done|].
    apply bind_ok in Hx1 as (e' & He' & <-%Ok_inj).
    apply py_index_lookup in He'; [|lia].
    exists e'. split; [done|]. congruence.
Qed.

Lemma peak_hour_belongs_to_label_witness :
  ∃ p, PStr "07:00 - 08:00" = PStr p ∧ window_label (Some p) = Some AM.
Proof.
  apply (proj2 peak_hour_belongs_to_label clock all_periods morning_text
           (default ∅ (_read_pdf clock all_periods morning_text)) AM
           (PStr "07:00 - 08:00") eq_refl).
  vm_compute. reflexivity.
Defined.

(** X4. The keys of a record are exactly the nine document keys (date,
    weather, type and the six flags), always present, and the thirteen
    keys of each label whose two flags hold; no other key is ever
    stored. *)
Theorem record_key_set to_datetime (self : WebScraper) (doc : document)
  (tmc : gmap string pyval) :
  scrape to_datetime self doc = Some tmc →
  ∀ k, is_Some (tmc !! k) ↔
       k ∈ document_keys
       ∨ ∃ l, k ∈ period_keys l
              ∧ truthy (dict_get tmc (tag l +:+ "_available")) = true
              ∧ truthy (dict_get tmc (tag l +:+ "_scraped")) = true.
Proof.
  intros (block & date & weather & type & st & Hkeys & Htmc)%scrape_assembled k.
  destruct (assembled_record _ _ _ _ _ _ _ Hkeys Htmc) as [Hflags _].
  rewrite (collect_periods_is_Some _ Hkeys _ _ _ _ k Htmc), record_head_keys.
  split.
  - intros [?|(l & _ & Hcheck & Hk)]; [by left|]. right. exists l.
    destruct (Hflags l) as [Ha Hs]. unfold dict_get. rewrite Ha, Hs. simpl.
    rewrite check_set_checks, truthy_py_and in Hcheck.
    by apply andb_true_iff in Hcheck as [? ?].
  - intros [?|(l & Hk & Ha' & Hs')]; [by left|]. right. exists l.
    destruct (Hflags l) as [Ha Hs]. unfold dict_get in Ha', Hs'.
    rewrite Ha in Ha'. rewrite Hs in Hs'. simpl in Ha', Hs'.
    split; [apply labels_all|]. split; [|done].
    by rewrite check_set_checks, truthy_py_and, Hs', Ha'.
Qed.

Lemma record_key_set_witness :
  is_Some (default ∅ (scrape clock all_periods (Pdf morning_text)) !! "weather") ↔
    "weather" ∈ document_keys
    ∨ ∃ l, "weather" ∈ period_keys l
           ∧ truthy (dict_get (default ∅ (scrape clock all_periods (Pdf morning_text)))
                       (tag l +:+ "_available")) = true
           ∧ truthy (dict_get (default ∅ (scrape clock all_periods (Pdf morning_text)))
                       (tag l +:+ "_scraped")) = true.
Proof.
  apply (record_key_set clock all_periods (Pdf morning_text) _ eq_refl "weather").
Defined.

Lemma xlsx_kept_anchor to_datetime ws st l key :
  xlsx_detect to_datetime ws = Ok st →
  table_key (ctl_of l st) = Some key → key = anchor l.
Proof.
  intros Hdet Hkey.
  destruct (xlsx_loop_keys to_datetime ws _ _ _ Hdet) with (l := l) as [H|H].
  - intros l'. left. by destruct l'.
  - congruence.
  - congruence.
Qed.

Lemma value_or_none_cases (c : cell_value) (v : pyval) :
  v = value_or_none c →
  (truthy (cell_py c) = true ∧ v = cell_py c)
  ∨ (truthy (cell_py c) = false ∧ v = PNone).
Proof. unfold value_or_none. intros ->. destruct (truthy (cell_py c)); auto. Qed.

Lemma xlsx_cell_keys (l : label) suffix column offset :
  (suffix, (column, offset)) ∈ xlsx_cells → tag l +:+ suffix ∈ period_keys l.
Proof.
  intros Hin. unfold xlsx_cells in Hin.
  repeat (apply elem_of_cons in Hin as [[= -> -> ->]|Hin];
          [destruct l; apply (bool_decide_unpack _); vm_compute; exact I|]).
  by apply elem_of_nil in Hin.
Qed.

(** X5. In a spreadsheet record every volume of a label is read from one
    fixed cell, at a constant offset from the anchor of the label; it is
    the value of the cell when that value is true, and [None] when it is
    false, so that a count of zero is recorded as [None]. *)
Theorem xlsx_volume_cells to_datetime (self : WebScraper)
  (wb : gmap string (gmap string cell_value)) (ws : gmap string cell_value)
  (tmc : gmap string pyval) (l : label) (suffix column : string) (offset : Z)
  (v : pyval) :
  _read_xlsx to_datetime self wb = Some tmc →
  wb !! "Summary" = Some ws →
  (suffix, (column, offset)) ∈ xlsx_cells →
  tmc !! (tag l +:+ suffix) = Some v →
  (truthy (cell_py (cell ws column (anchor l + offset))) = true
   ∧ v = cell_py (cell ws column (anchor l + offset)))
  ∨ (truthy (cell_py (cell ws column (anchor l + offset))) = false
     ∧ v = PNone).
Proof.
  intros Hread Hws Hin Hv.
  destruct (xlsx_assembled _ _ _ _ _ Hread Hws) as (st & weather & Hdet & Htmc).
  destruct (assembled_field _ _ _ _ _ _ _ _ _ _
              (xlsx_block_keys ws) Htmc (xlsx_cell_keys l _ _ _ Hin) Hv)
    as (_ & kvs & Hblock & Hfield).
  unfold xlsx_period_block in Hblock.
  destruct (table_key (ctl_of l st)) as [key|] eqn:Hkey; [|done].
  apply (xlsx_kept_anchor _ _ _ _ _ Hdet) in Hkey as ->.
  apply Ok_inj in Hblock as <-.
  apply value_or_none_cases.
  unfold xlsx_cells in Hin.
  repeat (apply elem_of_cons in Hin as [[= -> -> ->]|Hin];
          [rewrite ?Z.add_0_r; destruct l; unfold dict_update in Hfield;
           simpl in Hfield; by simplify_map_eq|]).
  by apply elem_of_nil in Hin.
Qed.

Lemma xlsx_volume_cells_witness :
  (truthy (cell_py (cell counted_sheet "M" (anchor AM + 0))) = true
   ∧ PNone = cell_py (cell counted_sheet "M" (anchor AM + 0)))
  ∨ (truthy (cell_py (cell counted_sheet "M" (anchor AM + 0))) = false
     ∧ PNone = PNone).
Proof.
  apply (xlsx_volume_cells clock all_periods counted_workbook counted_sheet
           (default ∅ (_read_xlsx clock all_periods counted_workbook))
           AM "_north_veh_vol" "M" 0 PNone eq_refl eq_refl).
  - unfold xlsx_cells. rewrite !elem_of_cons. auto.
  - vm_compute. reflexivity.
Defined.

Section Skipped.
Variable to_datetime : string → result timestamp.

Lemma xlsx_step_raises ws (i : Z) (st : detection) :
  unreadable_window to_datetime ws i ∨ mixed_time_zones to_datetime ws i →
  raises (xlsx_detect_step to_datetime ws i st).
Proof.
  unfold xlsx_detect_step, unreadable_window, mixed_time_zones.
  intros [(period & Hperiod & H)|(period & e & s & Hperiod & H)];
    rewrite Hperiod, (xlsx_peak_hour_truthy _ _ _ Hperiod).
  - destruct H as [[e1 He]|[e2 Hs]].
    + rewrite He. by exists e1.
    + rewrite Hs.
      destruct (to_datetime (PyStr.take_last 5 period)) as [t_end|e1];
        [by exists e2|by exists e1].
  - destruct H as [[-> ->]|[-> ->]]; by exists TypeError.
Qed.

Lemma xlsx_loop_raises ws (keys : list Z) (st : detection) (i : Z) :
  i ∈ keys →
  unreadable_window to_datetime ws i ∨ mixed_time_zones to_datetime ws i →
  raises (xlsx_detect_loop to_datetime ws keys st).
Proof.
  intros Hi Hwindow. revert st.
  induction keys as [|j keys IH]; intros st; [by apply elem_of_nil in Hi|].
  simpl.
  destruct (xlsx_detect_step to_datetime ws j st) as [st1|e] eqn:Hstep;
    [|by exists e].
  apply elem_of_cons in Hi as [->|Hi]; [|by apply IH].
  destruct (xlsx_step_raises ws j st Hwindow) as [e He]. congruence.
Qed.

Lemma xlsx_weather_raises ws :
  raises (_xlsx_get_weather ws) ↔ weather_not_text ws.
Proof.
  unfold _xlsx_get_weather, weather_not_text.
  destruct (truthy (cell_py (cell ws "V" 8))) eqn:Ht.
  - destruct (cell ws "V" 8) as [| | |s|]; split;
      try (by intros [e ?]); try (intros _; by eexists);
      try (intros _; split; [done|]; by intros s').
    intros [_ H]. by destruct (H s).
  - split; [by intros [e ?]|]. by intros [? _].
Qed.

End Skipped.

Lemma catch_none {A} (r : result A) : catch r = None ↔ raises r.
Proof. destruct r as [x|e]; split; try done; [by intros [? ?]|by exists e]. Qed.

Lemma bind_raises {A B} (r : result A) (f : A → result B) :
  raises (x ← r; f x) ↔ raises r ∨ ∃ x, r = Ok x ∧ raises (f x).
Proof.
  destruct r as [x|e].
  - split; [intros H; right; by exists x|].
    intros [[? ?]|(x' & [= <-] & H)]; done.
  - split; [intros _; left; by exists e|]. intros _. by exists e.
Qed.

(** X6. A workbook is skipped when it has no sheet named Summary, when an
    end of one of the three candidate windows cannot be read as a time,
    when the two ends of one of them are read as a time with a time zone
    and a time without, and when the weather cell holds something true
    that is not a text. *)
Theorem workbook_skipped to_datetime (self : WebScraper)
  (wb : gmap string (gmap string cell_value)) :
  (wb !! "Summary" = None
   ∨ ∃ ws, wb !! "Summary" = Some ws
           ∧ ((∃ i, i ∈ [32; 62; 92]
                    ∧ (unreadable_window to_datetime ws i
                       ∨ mixed_time_zones to_datetime ws i))
              ∨ weather_not_text ws)) →
  _read_xlsx to_datetime self wb = None.
Proof.
  unfold _read_xlsx, read_xlsx_body.
  intros [Hws|(ws & Hws & H)]; rewrite Hws; [done|].
  apply catch_none, bind_raises.
  destruct H as [(i & Hi & Hwindow)|Hweather].
  - left. by apply (xlsx_loop_raises to_datetime ws [32; 62; 92] _ i).
  - destruct (xlsx_detect to_datetime ws) as [st|e] eqn:Hdet;
      [|left; by exists e].
    right. exists st. split; [done|]. apply bind_raises. left.
    by apply xlsx_weather_raises.
Qed.

Lemma workbook_skipped_witness :
  _read_xlsx zoned_clock all_periods zoned_workbook = None.
Proof.
  apply (workbook_skipped zoned_clock all_periods zoned_workbook).
  right. exists zoned_sheet. split; [reflexivity|]. left.
  exists 32. split; [rewrite !elem_of_cons; auto|]. right.
  exists "07:15 - 0815Z", (3600 * 8 + 60 * 15), (3600 * 7 + 60 * 15).
  split; [vm_compute; reflexivity|]. left.
  split; vm_compute; reflexivity.
Defined.

Lemma all_digits_snoc (acc : string) (c : ascii) :
  all_digits acc = true → PyStr.is_digit c = true →
  all_digits (PyStr.snoc acc c) = true.
Proof.
  unfold PyStr.snoc. induction acc as [|a acc IH]; simpl; intros Hacc Hc.
  - by rewrite Hc.
  - apply andb_true_iff in Hacc as [-> Hacc]. simpl. by apply IH.
Qed.

Lemma snoc_nonempty (acc : string) (c : ascii) :
  String.eqb (PyStr.snoc acc c) "" = false.
Proof. by destruct acc. Qed.

Lemma is_number_acc (acc : string) :
  all_digits acc = true → acc ≠ EmptyString → is_number acc = true.
Proof.
  intros Hacc Hne. unfold is_number. rewrite Hacc, andb_true_r.
  destruct acc; [done|]. reflexivity.
Qed.

Lemma findall_digits_go_numbers (acc s : string) :
  all_digits acc = true →
  Forall (fun d => is_number d = true) (PyStr.findall_digits_go acc s).
Proof.
  revert acc. induction s as [|c s IH]; intros acc Hacc; simpl.
  - destruct acc as [|a acc]; [constructor|].
    constructor; [by apply is_number_acc|constructor].
  - destruct (PyStr.is_digit c) eqn:Hc.
    + apply IH. by apply all_digits_snoc.
    + destruct acc as [|a acc]; [by apply IH|].
      constructor; [by apply is_number_acc|by apply IH].
Qed.

Lemma findall_digits_numbers (s : string) :
  Forall (fun d => is_number d = true) (PyStr.findall_digits s).
Proof. by apply findall_digits_go_numbers. Qed.

Lemma findall_digits_go_nil (acc s : string) :
  PyStr.findall_digits_go acc s = [] ↔ acc = EmptyString ∧ has_digit s = false.
Proof.
  revert acc. induction s as [|c s IH]; intros acc; simpl.
  - destruct acc; split; try done. by intros [? _].
  - destruct (PyStr.is_digit c) eqn:Hc; simpl.
    + rewrite IH. split; [|by intros [_ ?]].
      intros [H _]. by destruct acc.
    + destruct acc as [|a acc]; [by rewrite IH|].
      split; [done|by intros [? _]].
Qed.

Lemma findall_digits_nil (s : string) :
  PyStr.findall_digits s = [] ↔ has_digit s = false.
Proof.
  unfold PyStr.findall_digits. rewrite findall_digits_go_nil.
  split; [by intros [_ ?]|by split].
Qed.

Lemma py_index_elem {A} (l : list A) (i : Z) (x : A) :
  py_index l i = Ok x → x ∈ l.
Proof.
  unfold py_index. destruct (_ && _); [|done].
  destruct (l !! _) as [y|] eqn:Hy; [|done].
  intros <-%Ok_inj. by apply list_elem_of_lookup_2 in Hy.
Qed.

Lemma py_index_ends_raise {A} (l : list A) (i : Z) :
  i = 0 ∨ i = -1 → raises (py_index l i) ↔ l = [].
Proof.
  intros Hi. split.
  - destruct l as [|x l]; [done|]. intros [e He]. exfalso.
    destruct Hi as [-> | ->].
    + by rewrite py_index_first in He.
    + by rewrite (py_index_last x x) in He.
  - intros ->. exists IndexError. by destruct Hi as [-> | ->].
Qed.

Lemma digits_at_raises (text : string) (i : Z) :
  i = 0 ∨ i = -1 →
  raises (OldTMCScraper.digits_at text i) ↔ has_digit text = false.
Proof.
  intros Hi. unfold OldTMCScraper.digits_at.
  rewrite bind_raises, (py_index_ends_raise _ _ Hi), findall_digits_nil.
  split; [|by left]. intros [?|(d & _ & [e ?])]; done.
Qed.

Lemma digits_at_number (text : string) (i : Z) (v : pyval) :
  OldTMCScraper.digits_at text i = Ok v → ∃ d, v = PStr d ∧ is_number d = true.
Proof.
  unfold OldTMCScraper.digits_at. intros (d & Hd & <-%Ok_inj)%bind_ok.
  exists d. split; [done|].
  pose proof (findall_digits_numbers text) as Hall.
  rewrite Forall_forall in Hall. by apply Hall, (py_index_elem _ i).
Qed.

(** X7. The north bikes and north peds locators of the HTML adapter raise
    exactly when an element is selected and the text of the first one has
    no digit; without a selected element they return [None]. *)
Theorem north_locators_raise_iff (soup : OldTMCScraper.Soup) (key : Z) :
  (raises (OldTMCScraper._get_north_bikes_vol soup key) ↔
     ∃ row rest, OldTMCScraper.north_bikes_tr soup key = row :: rest
                 ∧ has_digit row = false)
  ∧ (raises (OldTMCScraper._get_north_peds_vol soup key) ↔
       ∃ cell rest, OldTMCScraper.north_peds_th soup key = cell :: rest
                    ∧ has_digit cell = false)
  ∧ (OldTMCScraper.north_bikes_tr soup key = [] →
       OldTMCScraper._get_north_bikes_vol soup key = Ok PNone)
  ∧ (OldTMCScraper.north_peds_th soup key = [] →
       OldTMCScraper._get_north_peds_vol soup key = Ok PNone).
Proof.
  unfold OldTMCScraper._get_north_bikes_vol, OldTMCScraper._get_north_peds_vol.
  repeat split.
  - destruct (OldTMCScraper.north_bikes_tr soup key) as [|row rest];
      [by intros [? ?]|].
    rewrite digits_at_raises by auto. intros H. by exists row, rest.
  - intros (row & rest & -> & H). rewrite digits_at_raises by auto. done.
  - destruct (OldTMCScraper.north_peds_th soup key) as [|row rest];
      [by intros [? ?]|].
    rewrite digits_at_raises by auto. intros H. by exists row, rest.
  - intros (row & rest & -> & H). rewrite digits_at_raises by auto. done.
  - by intros ->.
  - by intros ->.
Qed.

Lemma guarded_digits_value elements i v :
  OldTMCScraper.guarded_digits elements i = Ok v → digit_string v.
Proof.
  unfold OldTMCScraper.guarded_digits. destruct elements as [|e es]; [intros <-%Ok_inj; by left|].
  destruct (_ && _); [|intros <-%Ok_inj; by left].
  intros (e' & _ & H)%bind_ok. right. by apply digits_at_number in H.
Qed.

Lemma unguarded_digits_value elements i v :
  OldTMCScraper.unguarded_digits elements i = Ok v → digit_string v.
Proof.
  unfold OldTMCScraper.unguarded_digits. destruct elements as [|e es]; [intros <-%Ok_inj; by left|].
  intros (e' & _ & H)%bind_ok. right. by apply digits_at_number in H.
Qed.

Lemma north_veh_value soup key :
  ∃ v, OldTMCScraper._get_north_veh_vol soup key = Ok v ∧ digit_string v.
Proof.
  unfold OldTMCScraper._get_north_veh_vol.
  set (nums := PyStr.findall_digits _).
  destruct (2 <? Z.of_nat (length nums)) eqn:Hlen; [|exists PNone; split; [done|by left]].
  apply Z.ltb_lt in Hlen.
  destruct (nums !! 2%nat) as [d|] eqn:Hd.
  - exists (PStr d). split.
    + unfold py_index. replace (2 <? 0) with false by done.
      replace ((0 <=? 2) && (2 <? Z.of_nat (length nums))) with true
        by (symmetry; apply andb_true_iff; split; [done|by apply Z.ltb_lt]).
      change (Z.to_nat 2) with 2%nat. by rewrite Hd.
    + right. exists d. split; [done|].
      pose proof (findall_digits_numbers
                    (String.concat "" (OldTMCScraper.north_veh_th soup key))) as Hall.
      rewrite Forall_forall in Hall. apply Hall.
      by apply list_elem_of_lookup_2 in Hd.
  - apply lookup_ge_None in Hd. lia.
Qed.

Lemma north_value_bikes soup key v :
  OldTMCScraper._get_north_bikes_vol soup key = Ok v → digit_string v.
Proof.
  unfold OldTMCScraper._get_north_bikes_vol.
  destruct (OldTMCScraper.north_bikes_tr soup key); [intros <-%Ok_inj; by left|].
  intros H. right. by apply digits_at_number in H.
Qed.

Lemma north_value_peds soup key v :
  OldTMCScraper._get_north_peds_vol soup key = Ok v → digit_string v.
Proof.
  unfold OldTMCScraper._get_north_peds_vol.
  destruct (OldTMCScraper.north_peds_th soup key); [intros <-%Ok_inj; by left|].
  intros H. right. by apply digits_at_number in H.
Qed.

Lemma volume_suffix_keys (l : label) suffix :
  suffix ∈ volume_suffixes → tag l +:+ suffix ∈ period_keys l.
Proof.
  intros Hin. unfold volume_suffixes in Hin.
  repeat (apply elem_of_cons in Hin as [->|Hin];
          [destruct l; apply (bool_decide_unpack _); vm_compute; exact I|]).
  by apply elem_of_nil in Hin.
Qed.

(** X8. In every HTML record each of the twelve volumes is [None] or a
    non-empty text of digits: the counts are stored as text, never as
    integers. *)
Theorem html_volumes_are_digit_strings to_datetime (self : WebScraper)
  (soup : OldTMCScraper.Soup) (tmc : gmap string pyval) (l : label)
  (suffix : string) (v : pyval) :
  OldTMCScraper._scrape_tmc to_datetime self soup = Some tmc →
  suffix ∈ volume_suffixes →
  tmc !! (tag l +:+ suffix) = Some v →
  digit_string v.
Proof.
  intros (st & date & weather & type & Hdet & Htmc)%html_assembled Hin Hv.
  destruct (assembled_field _ _ _ _ _ _ _ _ _ _
              (html_block_keys soup) Htmc (volume_suffix_keys l _ Hin) Hv)
    as (_ & kvs & Hblock & Hfield).
  unfold OldTMCScraper.period_block in Hblock.
  destruct (table_key (ctl_of l st)) as [key|]; [|done].
  apply bind_ok in Hblock as (north_bikes & ?%north_value_bikes & Hblock).
  apply bind_ok in Hblock as (north_peds & ?%north_value_peds & Hblock).
  apply bind_ok in Hblock as (north_veh & Hnv & Hblock).
  assert (digit_string north_veh).
  { destruct (north_veh_value soup key) as (v' & Hv' & ?). congruence. }
  apply bind_ok in Hblock as (east_bikes & ?%guarded_digits_value & Hblock).
  apply bind_ok in Hblock as (east_peds & ?%guarded_digits_value & Hblock).
  apply bind_ok in Hblock as (east_veh & ?%unguarded_digits_value & Hblock).
  apply bind_ok in Hblock as (south_bikes & ?%guarded_digits_value & Hblock).
  apply bind_ok in Hblock as (south_peds & ?%guarded_digits_value & Hblock).
  apply bind_ok in Hblock as (south_veh & ?%unguarded_digits_value & Hblock).
  apply bind_ok in Hblock as (west_bikes & ?%guarded_digits_value & Hblock).
  apply bind_ok in Hblock as (west_peds & ?%guarded_digits_value & Hblock).
  apply bind_ok in Hblock as (west_veh & ?%unguarded_digits_value & Hblock).
  apply Ok_inj in Hblock as <-.
  unfold volume_suffixes in Hin.
  repeat (apply elem_of_cons in Hin as [->|Hin];
          [destruct l; unfold dict_update in Hfield; simpl in Hfield;
           by simplify_map_eq|]).
  by apply elem_of_nil in Hin.
Qed.

Lemma html_volumes_are_digit_strings_witness :
  digit_string (PStr "3").
Proof.
  apply (html_volumes_are_digit_strings clock all_periods (morning_soup "Bikes 3")
           (default ∅ (OldTMCScraper._scrape_tmc clock all_periods
                         (morning_soup "Bikes 3")))
           AM "_north_bikes_vol" (PStr "3") eq_refl).
  - unfold volume_suffixes. rewrite !elem_of_cons. auto.
  - vm_compute. reflexivity.
Defined.

Lemma detect_step_raises (i : Z) (period : option string) (st : detection) :
  raises (detect_step i period st) ↔ unreadable_hour period.
Proof.
  unfold detect_step, unreadable_hour. destruct period as [p|].
  - destruct (truthy (PStr p)) eqn:Ht.
    + apply truthy_str in Ht. rewrite bind_raises. split.
      * intros [H|(h & _ & [e ?])]; [|done]. by exists p.
      * intros (p' & [= <-] & _ & H). by left.
    + split; [by intros [e ?]|]. intros (p' & [= <-] & Hne & _).
      apply truthy_str in Hne. congruence.
  - split; [by intros [e ?]|]. by intros (p' & ? & _).
Qed.

Lemma detect_windows_raises windows (st : detection) :
  raises (detect_windows windows st)
  ↔ ∃ i period, (i, period) ∈ windows ∧ unreadable_hour period.
Proof.
  revert st. induction windows as [|[i p] windows IH]; intros st.
  - split; [by intros [e ?]|]. intros (i & p & Hin & _). by apply elem_of_nil in Hin.
  - cbn [detect_windows]. rewrite bind_raises, detect_step_raises. split.
    + intros [H|(st1 & _ & H)].
      * exists i, p. split; [apply elem_of_cons; auto|done].
      * apply IH in H as (j & q & Hin & Hq). exists j, q.
        split; [apply elem_of_cons; auto|done].
    + intros (j & q & [[= -> ->]|Hin]%elem_of_cons & Hq); [by left|].
      destruct (detect_step i p st) as [st1|e] eqn:Hstep.
      * right. exists st1. split; [done|]. apply IH. by exists j, q.
      * left. rewrite <- (detect_step_raises i p st), Hstep. by exists e.
Qed.

(** X9. An HTML page is skipped as a whole when one of its three period
    tables has a non-empty peak hour whose first two characters are not
    an integer (as in [7:30 - 8:30]), and when its weather element is
    blank. *)
Theorem html_page_skipped to_datetime (self : WebScraper)
  (soup : OldTMCScraper.Soup) :
  ((∃ i, i ∈ [2; 3; 4]
         ∧ unreadable_hour (OldTMCScraper._get_peak_hour soup i)) →
     OldTMCScraper._scrape_tmc to_datetime self soup = None)
  ∧ ((∃ e rest, OldTMCScraper.weather_p soup = e :: rest ∧ PyStr.split e = []) →
       OldTMCScraper._scrape_tmc to_datetime self soup = None).
Proof.
  unfold OldTMCScraper._scrape_tmc, OldTMCScraper.scrape_body. split.
  - intros (i & Hi & Hu). apply catch_none, bind_raises. left.
    unfold OldTMCScraper.detect. rewrite html_detect_windows.
    apply detect_windows_raises.
    exists i, (OldTMCScraper._get_peak_hour soup i). split; [|done].
    by apply (list_elem_of_fmap_2 (λ i, (i, OldTMCScraper._get_peak_hour soup i))).
  - intros (e & rest & Hw & Hsplit). apply catch_none.
    destruct (OldTMCScraper.detect soup) as [st|err]; [|by exists err].
    apply bind_raises. right. exists st. split; [done|].
    destruct (OldTMCScraper._get_date to_datetime soup) as [date|err];
      [|by exists err].
    apply bind_raises. right. exists date. split; [done|].
    apply bind_raises. left.
    unfold OldTMCScraper._get_weather. rewrite Hw, Hsplit. by exists IndexError.
Qed.

Lemma html_page_skipped_witness :
  OldTMCScraper._scrape_tmc clock all_periods short_hour_soup = None.
Proof.
  apply (proj1 (html_page_skipped clock all_periods short_hour_soup)).
  exists 3. split; [rewrite !elem_of_cons; auto|].
  exists "7:30 - 8:30". split; [reflexivity|]. split; [done|].
  exists ValueError. reflexivity.
Defined.

Lemma two_digits_readable (p : string) :
  starts_with_two_digits p → ¬ unreadable_hour (Some p).
Proof.
  intros (c1 & c2 & rest & -> & H1 & H2) (p' & [= <-] & _ & [e He]).
  change (PyStr.take 2 (String c1 (String c2 rest)))
    with (String c1 (String c2 EmptyString)) in He.
  by rewrite to_int_two_digits in He.
Qed.

Lemma windows_from_elem (i : Z) (periods : list string) j p :
  (j, p) ∈ windows_from i periods → ∃ period, p = Some period ∧ period ∈ periods.
Proof.
  intros (n & Hn)%list_elem_of_lookup_1.
  apply windows_from_lookup in Hn as [_ (period & -> & Hp)].
  exists period. split; [done|]. by apply list_elem_of_lookup_2 in Hp.
Qed.

(** X10. The period detection of the PDF adapter does not raise when every
    peak window starts with two digits, as the pattern that finds the
    windows ensures. *)
Theorem pdf_detection_never_raises (text : PdfText) :
  Forall starts_with_two_digits (maximum_hour text) →
  ∃ st, pdf_detect text = Ok st.
Proof.
  intros Hall. destruct (pdf_detect text) as [st|e] eqn:Hdet; [by exists st|].
  exfalso. unfold pdf_detect in Hdet. rewrite pdf_detect_windows in Hdet.
  assert (Hr : raises (detect_windows (windows_from 0 (maximum_hour text))
                         detection_init)) by (by exists e).
  apply detect_windows_raises in Hr as (i & p & Hin & Hu).
  apply windows_from_elem in Hin as (period & -> & Hin).
  rewrite Forall_forall in Hall. by apply (two_digits_readable period (Hall _ Hin)).
Qed.

Lemma pdf_detection_never_raises_witness :
  ∃ st, pdf_detect two_morning_windows = Ok st.
Proof.
  apply (pdf_detection_never_raises two_morning_windows).
  repeat constructor; by eexists _, _, _.
Defined.

Lemma set_filters_keys (period_filters : list string)
  (options : gmap string pyval) (k : string) :
  is_Some (_set_filters options period_filters !! k) ↔ is_Some (options !! k).
Proof.
  revert options. induction period_filters as [|f fs IH]; intros options; [done|].
  unfold _set_filters. simpl. fold (_set_filters
    (if decide (is_Some (options !! f)) then <[f:=PBool true]> options else options) fs).
  rewrite IH. case_decide as Hf; [|done].
  destruct (decide (f = k)) as [->|Hne].
  - rewrite lookup_insert_eq. split; [done|by eexists].
  - by rewrite lookup_insert_ne.
Qed.

(** X11. Whatever filters are given, the filter options keep exactly the keys
    AM, PM and MD: a filter of another name is ignored and adds no key. *)
Theorem filter_keys_fixed (period_filters : option (list string)) (k : string) :
  is_Some (filter_options (WebScraper_init period_filters) !! k)
  ↔ k = "AM" ∨ k = "PM" ∨ k = "MD".
Proof.
  assert (Hdef : is_Some (default_filter_options !! k)
                 ↔ k = "AM" ∨ k = "PM" ∨ k = "MD").
  { unfold default_filter_options.
    rewrite !lookup_insert. repeat case_decide; subst;
      rewrite ?lookup_empty; split; try (by eexists); try (by auto);
      try (by intros [? ?]); intros [?|[?|?]]; congruence. }
  unfold WebScraper_init. destruct period_filters as [[|f fs]|]; try done.
  cbn [filter_options _apply_filters]. by rewrite set_filters_keys.
Qed.

Lemma py_index_beyond {A} (l : list A) (i : Z) :
  Z.of_nat (length l) ≤ i → py_index l i = Raise IndexError.
Proof.
  intros Hi. unfold py_index.
  replace (i <? 0) with false by (symmetry; apply Z.ltb_ge; lia).
  replace (i <? Z.of_nat (length l)) with false
    by (symmetry; apply Z.ltb_ge; lia).
  by rewrite andb_false_r.
Qed.

Lemma py_index_within {A} (l : list A) (i : Z) :
  0 ≤ i < Z.of_nat (length l) → ∃ x, py_index l i = Ok x ∧ x ∈ l.
Proof.
  intros Hi. unfold py_index.
  replace (i <? 0) with false by (symmetry; apply Z.ltb_ge; lia).
  replace ((0 <=? i) && (i <? Z.of_nat (length l))) with true.
  2:{ symmetry. apply andb_true_iff. split; [apply Z.leb_le|apply Z.ltb_lt]; lia. }
  destruct (l !! Z.to_nat i) as [x|] eqn:Hx.
  - exists x. split; [done|]. by apply list_elem_of_lookup_2 in Hx.
  - apply lookup_ge_None in Hx. lia.
Qed.

Lemma guarded_digits_ok (elements : list string) (i : Z) :
  (∀ e, e ∈ elements → has_digit e = true) →
  ∃ v, OldTMCScraper.guarded_digits elements i = Ok v.
Proof.
  intros Hall. unfold OldTMCScraper.guarded_digits.
  destruct elements as [|e0 es]; [by eexists|].
  destruct ((0 <=? i) && (i <? Z.of_nat (length (e0 :: es)))) eqn:Hi;
    [|by eexists].
  apply andb_true_iff in Hi as [Hi1%Z.leb_le Hi2%Z.ltb_lt].
  destruct (py_index_within (e0 :: es) i) as (e & -> & He); [lia|].
  cbn [mbind result_bind].
  destruct (OldTMCScraper.digits_at e 0) as [v|err] eqn:Hd; [by eexists|].
  exfalso. assert (Hr : raises (OldTMCScraper.digits_at e 0)) by (by exists err).
  apply digits_at_raises in Hr; [|auto]. rewrite (Hall e He) in Hr. done.
Qed.

Lemma guarded_digits_beyond (elements : list string) (i : Z) :
  Z.of_nat (length elements) ≤ i ∨ i < 0 →
  OldTMCScraper.guarded_digits elements i = Ok PNone.
Proof.
  intros Hi. unfold OldTMCScraper.guarded_digits.
  destruct elements as [|e0 es]; [done|].
  replace ((0 <=? i) && (i <? Z.of_nat (length (e0 :: es)))) with false; [done|].
  symmetry. apply andb_false_iff.
  destruct Hi; [right; apply Z.ltb_ge|left; apply Z.leb_gt]; lia.
Qed.

Lemma unguarded_digits_beyond (elements : list string) (i : Z) :
  elements ≠ [] → Z.of_nat (length elements) ≤ i →
  OldTMCScraper.unguarded_digits elements i = Raise IndexError.
Proof.
  intros Hne Hi. unfold OldTMCScraper.unguarded_digits.
  destruct elements as [|e0 es]; [done|]. by rewrite py_index_beyond.
Qed.

(** X12. The north vehicle locator of the HTML adapter never raises, and the
    east, west and south bikes and peds locators do not raise, for any
    table key, when every selected element has a digit. *)
Theorem guarded_locators_never_raise (soup : OldTMCScraper.Soup) (key : Z) :
  (∃ v, OldTMCScraper._get_north_veh_vol soup key = Ok v)
  ∧ ((∀ e, e ∈ OldTMCScraper.bikes_th soup → has_digit e = true) →
       (∃ v, OldTMCScraper._get_east_bikes_vol soup key = Ok v)
       ∧ ∃ v, OldTMCScraper._get_west_bikes_vol soup key = Ok v)
  ∧ ((∀ e, e ∈ OldTMCScraper.peds_th soup → has_digit e = true) →
       (∃ v, OldTMCScraper._get_east_peds_vol soup key = Ok v)
       ∧ ∃ v, OldTMCScraper._get_west_peds_vol soup key = Ok v)
  ∧ ((∀ e, e ∈ OldTMCScraper.south_bikes_tr soup → has_digit e = true) →
       ∃ v, OldTMCScraper._get_south_bikes_vol soup key = Ok v)
  ∧ ((∀ e, e ∈ OldTMCScraper.south_peds_th soup → has_digit e = true) →
       ∃ v, OldTMCScraper._get_south_peds_vol soup key = Ok v).
Proof.
  split; [destruct (north_veh_value soup key) as (v & Hv & _); by exists v|].
  split; [intros Hall; split; by apply guarded_digits_ok|].
  split; [intros Hall; split; by apply guarded_digits_ok|].
  split; intros Hall; by apply guarded_digits_ok.
Qed.

(** X13. The east and west vehicle locators of the HTML adapter index the
    selected elements without a bound check: with some elements but not
    more than [key - 2] they raise [IndexError], where the bikes locators
    return [None] for an index beyond the elements. *)
Theorem unguarded_locators_raise_beyond (soup : OldTMCScraper.Soup) (key : Z) :
  (OldTMCScraper.east_veh_th soup ≠ [] →
     Z.of_nat (length (OldTMCScraper.east_veh_th soup)) ≤ key - 2 →
     OldTMCScraper._get_east_veh_vol soup key = Raise IndexError)
  ∧ (OldTMCScraper.west_veh_th soup ≠ [] →
       Z.of_nat (length (OldTMCScraper.west_veh_th soup)) ≤ key - 2 →
       OldTMCScraper._get_west_veh_vol soup key = Raise IndexError)
  ∧ (Z.of_nat (length (OldTMCScraper.bikes_th soup)) ≤ 2 * key - 3 →
       OldTMCScraper._get_east_bikes_vol soup key = Ok PNone)
  ∧ (Z.of_nat (length (OldTMCScraper.bikes_th soup)) ≤ 2 * key - 4 →
       OldTMCScraper._get_west_bikes_vol soup key = Ok PNone).
Proof.
  split; [intros; by apply unguarded_digits_beyond|].
  split; [intros; by apply unguarded_digits_beyond|].
  split; intros; apply guarded_digits_beyond; by left.
Qed.

Lemma unguarded_locators_raise_beyond_witness :
  OldTMCScraper._get_east_veh_vol one_east_cell_soup 3 = Raise IndexError
  ∧ OldTMCScraper._get_east_bikes_vol one_east_cell_soup 3 = Ok PNone.
Proof.
  split.
  - apply (proj1 (unguarded_locators_raise_beyond one_east_cell_soup 3));
      [done|simpl; lia].
  - apply (proj1 (proj2 (proj2 (unguarded_locators_raise_beyond one_east_cell_soup 3)))).
    simpl. lia.
Defined.

Lemma guarded_locators_never_raise_witness :
  (∃ v, OldTMCScraper._get_east_bikes_vol one_east_cell_soup 4 = Ok v)
  ∧ ∃ v, OldTMCScraper._get_west_bikes_vol one_east_cell_soup 4 = Ok v.
Proof.
  apply (proj1 (proj2 (guarded_locators_never_raise one_east_cell_soup 4))).
  intros e He. simpl in He.
  apply elem_of_cons in He as [->|He]; [reflexivity|by apply elem_of_nil in He].
Defined.

Lemma last_List_last {A} (l : list A) (d : A) :
  l ≠ [] → last l = Some (List.last l d).
Proof.
  induction l as [|x [|y l] IH]; [done|done|]. intros _.
  change (last (y :: l) = Some (List.last (y :: l) d)). by apply IH.
Qed.

Lemma side_cases (P : Prop) `{Decision P} (m : Z) :
  (P ∧ side P m = PInt m) ∨ (¬ P ∧ side P m = PNone).
Proof. unfold side. case_decide; auto. Qed.

Lemma outcome_values (run_1 run_2 run_3 : list Z) (east west : pyval) :
  east_west_outcome run_1 run_2 run_3 = Ok (east, west) →
  (∀ x, east = PInt x → last run_2 = Some x)
  ∧ (∀ x, west = PInt x → head run_2 = Some x)
  ∧ int_mark_or_absent east ∧ int_mark_or_absent west
  ∧ (east = PStr "manual_check" ↔ length run_2 = 2%nat)
  ∧ (west = PStr "manual_check" ↔ length run_2 = 2%nat).
Proof.
  intros Hout.
  destruct (east_west_outcome_table run_1 run_2 run_3)
    as (e & w & Heq & H5 & H4 & H3 & H2 & H1).
  rewrite Heq in Hout. apply Ok_inj in Hout. injection Hout as -> ->.
  unfold int_mark_or_absent.
  destruct run_2 as [|a [|b [|c [|d [|x rest]]]]].
  - destruct H1 as [-> ->]; [simpl; lia|]. repeat split; try done; auto.
  - destruct H1 as [-> ->]; [simpl; lia|]. repeat split; try done; auto.
  - destruct H2 as [-> ->]; [done|]. repeat split; try done; auto.
  - destruct (py_max_total [a; b; c]) as [m Hm%py_max_is_max]; [done|].
    destruct (H3 _ _ _ eq_refl m Hm) as [-> ->].
    destruct (side_cases (m = a) m) as [[? ->]|[? ->]],
             (side_cases (m = c) m) as [[? ->]|[? ->]];
      repeat split; try done; try (intros ? [= <-]; simpl; congruence);
      eauto.
  - destruct (H4 _ _ _ _ eq_refl) as [Hsym Hmax].
    destruct (decide (a = b ∧ c = d)) as [Hs|Hs].
    + destruct (Hsym Hs) as [-> ->].
      repeat split; try done; try (intros ? [= <-]; simpl; congruence); eauto.
    + destruct (py_max_total [a; b; c; d]) as [m Hm%py_max_is_max]; [done|].
      destruct (Hmax Hs m Hm) as [-> ->].
      destruct (side_cases (m = a) m) as [[? ->]|[? ->]],
               (side_cases (m = d) m) as [[? ->]|[? ->]];
        repeat split; try done; try (intros ? [= <-]; simpl; congruence);
        eauto.
  - assert (Hlen : (4 < length (a :: b :: c :: d :: x :: rest))%nat)
      by (simpl; lia).
    destruct (H5 Hlen 0) as [Hw He]. rewrite Hw, He.
    split_and!; try done; eauto.
    + intros ? [= <-].
      assert (Hne : a :: b :: c :: d :: x :: rest ≠ []) by done.
      exact (last_List_last (a :: b :: c :: d :: x :: rest) 0 Hne).
    + by intros ? [= <-].
Qed.



Lemma veh_vol_values (text : PdfText) (key : Z) (veh_vol : gmap string pyval) :
  _get_veh_vol text key = Ok veh_vol →
  int_or_absent (dict_get veh_vol "north")
  ∧ int_or_absent (dict_get veh_vol "south")
  ∧ int_mark_or_absent (dict_get veh_vol "east")
  ∧ int_mark_or_absent (dict_get veh_vol "west").
Proof.
  unfold _get_veh_vol. intros H.
  apply bind_ok in H as (section & _ & H).
  apply bind_ok in H as (r1 & _ & H).
  apply bind_ok in H as (r2 & _ & H).
  apply bind_ok in H as (r3 & _ & H).
  assert (Hout : east_west_outcome r1 r2 r3
                 = Ok (dict_get veh_vol "east", dict_get veh_vol "west")).
  { unfold east_west_outcome. by rewrite H. }
  destruct (outcome_values _ _ _ _ _ Hout) as (_ & _ & He & Hw & _).
  unfold veh_vol_of_runs in H. apply bind_ok in H as (elements & _ & Hns).
  destruct (get_after_north_south r1 r3 elements)
    as (veh & Hveh & _ & _ & Hn & Hs0 & Hs).
  rewrite Hns in Hveh. apply Ok_inj in Hveh as <-.
  split_and!; try done.
  - rewrite Hn. destruct r1; [by left|right; by eexists].
  - destruct r3 as [|z r3]; [left; by apply Hs0|].
    destruct (py_max_total (z :: r3)) as [m Hm%py_max_is_max]; [done|].
    right. exists m. by apply Hs.
Qed.

Lemma at_or_none_text (l : list string) (i : nat) : text_or_none (at_or_none l i).
Proof. unfold at_or_none. destruct (l !! i); [right; by eexists|by left]. Qed.

Lemma count_suffix_keys (l : label) suffix :
  suffix ∈ count_suffixes → tag l +:+ suffix ∈ period_keys l.
Proof.
  intros Hin. unfold count_suffixes in Hin.
  repeat (apply elem_of_cons in Hin as [->|Hin];
          [destruct l; apply (bool_decide_unpack _); vm_compute; exact I|]).
  by apply elem_of_nil in Hin.
Qed.

Lemma pdf_block_of_field to_datetime self text tmc l (k : string) v :
  _read_pdf to_datetime self text = Some tmc →
  k ∈ period_keys l →
  tmc !! k = Some v →
  ∃ key pb veh_vol peak_hour,
    _get_veh_vol text key = Ok veh_vol
    ∧ dict_update ∅
        [ (tag l +:+ "_peak_hour", peak_hour);
          (tag l +:+ "_north_bikes_vol", at_or_none pb 0);
          (tag l +:+ "_north_peds_vol", at_or_none pb 1);
          (tag l +:+ "_north_veh_vol", dict_get veh_vol "north");
          (tag l +:+ "_east_bikes_vol", at_or_none pb 5);
          (tag l +:+ "_east_peds_vol", at_or_none pb 4);
          (tag l +:+ "_east_veh_vol", dict_get veh_vol "east");
          (tag l +:+ "_south_bikes_vol", at_or_none pb 7);
          (tag l +:+ "_south_peds_vol", at_or_none pb 6);
          (tag l +:+ "_south_veh_vol", dict_get veh_vol "south");
          (tag l +:+ "_west_bikes_vol", at_or_none pb 2);
          (tag l +:+ "_west_peds_vol", at_or_none pb 3);
          (tag l +:+ "_west_veh_vol", dict_get veh_vol "west") ] !! k = Some v.
Proof.
  intros (st & date & Hdet & Htmc)%pdf_assembled Hk Hv.
  destruct (assembled_field _ _ _ _ _ _ _ _ _ _
              (pdf_block_keys text) Htmc Hk Hv)
    as (_ & kvs & Hblock & Hfield).
  unfold pdf_period_block in Hblock.
  destruct (table_key (ctl_of l st)) as [key|]; [|done].
  binds Hblock. destruct x as [pb|]; [|done]. apply Ok_inj in Hblock as <-.
  by exists key, pb, x0, x1.
Qed.

(** X15. In every PDF record the pedestrian and bicycle counts are texts or
    [None], the north and south vehicle volumes are integers or [None],
    and the east and west vehicle volumes are integers, [None] or the
    manual check mark. *)
Theorem pdf_counts_text_vehicles_integers to_datetime (self : WebScraper)
  (text : PdfText) (tmc : gmap string pyval) (l : label) :
  _read_pdf to_datetime self text = Some tmc →
  (∀ suffix v, suffix ∈ count_suffixes →
     tmc !! (tag l +:+ suffix) = Some v → text_or_none v)
  ∧ (∀ v, tmc !! (tag l +:+ "_north_veh_vol") = Some v → int_or_absent v)
  ∧ (∀ v, tmc !! (tag l +:+ "_south_veh_vol") = Some v → int_or_absent v)
  ∧ (∀ v, tmc !! (tag l +:+ "_east_veh_vol") = Some v → int_mark_or_absent v)
  ∧ (∀ v, tmc !! (tag l +:+ "_west_veh_vol") = Some v → int_mark_or_absent v).
Proof.
  intros Hread.
  assert (Hveh : ∀ suffix, suffix ∈ volume_suffixes →
                 tag l +:+ suffix ∈ period_keys l)
    by (intros; by apply volume_suffix_keys).
  split; [|split; [|split; [|split]]].
  - intros suffix v Hin Hv.
    destruct (pdf_block_of_field _ _ _ _ _ _ _ Hread (count_suffix_keys l _ Hin) Hv)
      as (key & pb & veh_vol & peak & _ & Hfield).
    unfold count_suffixes in Hin.
    repeat (apply elem_of_cons in Hin as [->|Hin];
            [destruct l; unfold dict_update in Hfield; simpl in Hfield;
             simplify_map_eq; apply at_or_none_text|]).
    by apply elem_of_nil in Hin.
  - intros v Hv.
    destruct (pdf_block_of_field _ _ _ _ _ _ _ Hread
                (Hveh "_north_veh_vol" ltac:(unfold volume_suffixes; rewrite !elem_of_cons; auto)) Hv)
      as (key & pb & veh_vol & peak & Hvv & Hfield).
    destruct (veh_vol_values _ _ _ Hvv) as (Hn & Hs & He & Hw).
    destruct l; unfold dict_update in Hfield; simpl in Hfield; by simplify_map_eq.
  - intros v Hv.
    destruct (pdf_block_of_field _ _ _ _ _ _ _ Hread
                (Hveh "_south_veh_vol" ltac:(unfold volume_suffixes; rewrite !elem_of_cons; auto 20)) Hv)
      as (key & pb & veh_vol & peak & Hvv & Hfield).
    destruct (veh_vol_values _ _ _ Hvv) as (Hn & Hs & He & Hw).
    destruct l; unfold dict_update in Hfield; simpl in Hfield; by simplify_map_eq.
  - intros v Hv.
    destruct (pdf_block_of_field _ _ _ _ _ _ _ Hread
                (Hveh "_east_veh_vol" ltac:(unfold volume_suffixes; rewrite !elem_of_cons; auto 20)) Hv)
      as (key & pb & veh_vol & peak & Hvv & Hfield).
    destruct (veh_vol_values _ _ _ Hvv) as (Hn & Hs & He & Hw).
    destruct l; unfold dict_update in Hfield; simpl in Hfield; by simplify_map_eq.
  - intros v Hv.
    destruct (pdf_block_of_field _ _ _ _ _ _ _ Hread
                (Hveh "_west_veh_vol" ltac:(unfold volume_suffixes; rewrite !elem_of_cons; auto 20)) Hv)
      as (key & pb & veh_vol & peak & Hvv & Hfield).
    destruct (veh_vol_values _ _ _ Hvv) as (Hn & Hs & He & Hw).
    destruct l; unfold dict_update in Hfield; simpl in Hfield; by simplify_map_eq.
Qed.

Lemma pdf_counts_text_vehicles_integers_witness :
  int_mark_or_absent (PInt 23).
Proof.
  apply (proj1 (proj2 (proj2 (proj2 (pdf_counts_text_vehicles_integers clock
           all_periods morning_text
           (default ∅ (_read_pdf clock all_periods morning_text))
           AM eq_refl))))).
  vm_compute. reflexivity.
Defined.

Lemma find_text_first (skips : bool) (f : string → bool)
  (pre post : list Anchor) (tag : Anchor) (x : string) :
  (∀ a, a ∈ pre → (∃ y, a_string a = Some y ∧ f y = false)
                  ∨ (a_string a = None ∧ skips = true)) →
  a_string tag = Some x → f x = true →
  find_text skips f (pre ++ tag :: post) = Ok (Some tag).
Proof.
  intros Hpre Htag Hx. induction pre as [|a pre IH]; simpl.
  - by rewrite Htag, Hx.
  - destruct (Hpre a) as [(y & -> & ->)|[-> ->]]; [apply elem_of_cons; auto| |];
      apply IH; intros b Hb; apply Hpre, elem_of_cons; auto.
Qed.

Lemma find_text_none (skips : bool) (f : string → bool) (page : list Anchor) :
  find_text skips f page = Ok None →
  ∀ a x, a ∈ page → a_string a = Some x → f x = false.
Proof.
  induction page as [|b page IH]; simpl; intros Hfind a x Ha Hax.
  - by apply elem_of_nil in Ha.
  - destruct (a_string b) as [y|] eqn:Hb.
    + destruct (f y) eqn:Hy; [done|].
      apply elem_of_cons in Ha as [->|Ha]; [congruence|by apply (IH Hfind a)].
    + destruct skips; [|done].
      apply elem_of_cons in Ha as [->|Ha]; [congruence|by apply (IH Hfind a)].
Qed.

(** X16. [_construct_url] returns the first link whose [.string], in lower
    case, has [.xlsx] or [.pdf], with the base URL before its address;
    the links before it have a [.string] without them, or no [.string]
    where Beautiful Soup passes such links over.  The file type is [xlsx]
    only when the text of the link as written has [.xlsx], so a
    spreadsheet named with an upper-case extension is typed [pdf]. *)
Theorem first_attachment_link_is_chosen (fetch : string → result (list Anchor))
  (skips : bool) (year object_id : string) (pre post : list Anchor)
  (tag : Anchor) (x href : string) :
  fetch (base_url +:+ path_url year object_id) = Ok (pre ++ tag :: post) →
  (∀ a, a ∈ pre → (∃ y, a_string a = Some y ∧ is_attachment y = false)
                  ∨ (a_string a = None ∧ skips = true)) →
  a_string tag = Some x →
  is_attachment x = true →
  a_href tag = Some href →
  _construct_url fetch skips year object_id
  = Ok (PStr (base_url +:+ href),
        PStr (if contains ".xlsx" (a_text tag) then "xlsx" else "pdf")).
Proof.
  intros Hfetch Hpre Htag Hx Hhref. unfold _construct_url. rewrite Hfetch.
  cbn [mbind result_bind].
  rewrite (find_text_first skips is_attachment pre post tag x Hpre Htag Hx).
  cbn [mbind result_bind]. by rewrite Hhref.
Qed.

Lemma first_attachment_link_is_chosen_witness :
  _construct_url (fun _ => Ok upper_case_page) true "2019" "42"
  = Ok (PStr "https://maps.vancouver.ca/server/att/7", PStr "pdf").
Proof.
  apply (first_attachment_link_is_chosen (fun _ => Ok upper_case_page) true
           "2019" "42"
           [ plain_link "Home" (Some "/"); nested_link ]
           [ plain_link "report.pdf" (Some "/server/att/8") ]
           (plain_link "Counts.XLSX" (Some "/server/att/7"))
           "Counts.XLSX" "/server/att/7").
  - reflexivity.
  - intros a Ha. apply elem_of_cons in Ha as [->|Ha].
    + left. exists "Home". split; reflexivity.
    + apply elem_of_cons in Ha as [->|Ha]; [|by apply elem_of_nil in Ha].
      right. split; reflexivity.
  - reflexivity.
  - reflexivity.
  - reflexivity.
Defined.

(** X17. When [_construct_url] returns, it returns either [nan] and [None],
    and then no link of the page has a [.string] that names an
    attachment, or an address under the base URL with the file type
    [xlsx] or [pdf]. *)
Theorem construct_url_outcomes (fetch : string → result (list Anchor))
  (skips : bool) (year object_id : string) (url file_type : pyval) :
  _construct_url fetch skips year object_id = Ok (url, file_type) →
  (url = nan ∧ file_type = PNone
   ∧ ∃ page, fetch (base_url +:+ path_url year object_id) = Ok page
             ∧ ∀ a x, a ∈ page → a_string a = Some x → is_attachment x = false)
  ∨ (∃ href, url = PStr (base_url +:+ href))
    ∧ (file_type = PStr "xlsx" ∨ file_type = PStr "pdf").
Proof.
  unfold _construct_url. intros (page & Hfetch & H)%bind_ok.
  apply bind_ok in H as (found & Hfind & H).
  destruct found as [tag|].
  - right. destruct (a_href tag) as [href|]; [|done].
    apply Ok_inj in H. injection H as <- <-. split; [by exists href|].
    destruct (contains ".xlsx" (a_text tag)); auto.
  - left. apply Ok_inj in H. injection H as <- <-. split; [done|]. split; [done|].
    exists page. split; [done|]. by apply (find_text_none skips).
Qed.

Lemma construct_url_outcomes_witness :
  (nan = nan ∧ PNone = PNone
   ∧ ∃ page, (fun _ : string => Ok nested_link_page)
               (base_url +:+ path_url "2019" "42") = Ok page
             ∧ ∀ a x, a ∈ page → a_string a = Some x → is_attachment x = false)
  ∨ (∃ href, nan = PStr (base_url +:+ href))
    ∧ (PNone = PStr "xlsx" ∨ PNone = PStr "pdf").
Proof.
  apply (construct_url_outcomes (fun _ => Ok nested_link_page) true
           "2019" "42" nan PNone).
  reflexivity.
Defined.

Lemma str_length_append (a b : string) :
  String.length (a +:+ b) = (String.length a + String.length b)%nat.
Proof. induction a as [|c a IH]; simpl; [done|]. by rewrite IH. Qed.

Lemma str_take_append (a b : string) (n : nat) :
  PyStr.take (String.length a + n) (a +:+ b) = a +:+ PyStr.take n b.
Proof. induction a as [|c a IH]; simpl; [done|]. by rewrite IH. Qed.

Lemma str_drop_append (a b : string) (n : nat) :
  PyStr.drop (String.length a + n) (a +:+ b) = PyStr.drop n b.
Proof. induction a as [|c a IH]; simpl; [done|]. by rewrite IH. Qed.

Lemma str_length_take (n : nat) (s : string) :
  String.length (PyStr.take n s) = Nat.min n (String.length s).
Proof.
  revert s. induction n as [|n IH]; intros [|c s]; simpl; try done.
  by rewrite IH.
Qed.

Lemma str_length_repeat (n : nat) (c : ascii) :
  String.length (PyStr.repeat_char n c) = n.
Proof. induction n as [|n IH]; simpl; [done|]. by rewrite IH. Qed.

Lemma clock_text_length (s : string) :
  (String.length s ≤ 8)%nat →
  String.length (PyStr.rjust 5 "0" (PyStr.drop_last 3 s)) = 5%nat.
Proof.
  intros Hs. unfold PyStr.rjust, PyStr.drop_last.
  rewrite str_length_append, str_length_repeat, str_length_take. lia.
Qed.

(** X18. When the texts of the two time cells have at most eight characters,
    the first six characters of the peak hour text are the padded start
    time and a blank, and its last five characters are the padded end
    time: the slices of the duration check read back the two times. *)
Theorem peak_hour_slices (ws : gmap string cell_value) (key : Z)
  (period : string) :
  _xlsx_get_peak_hour ws key = Some period →
  (String.length (cell_str (cell ws "N" (key + 15))) ≤ 8)%nat →
  (String.length (cell_str (cell ws "P" (key + 15))) ≤ 8)%nat →
  PyStr.take 6 period
  = PyStr.rjust 5 "0" (PyStr.drop_last 3 (cell_str (cell ws "N" (key + 15))))
    +:+ " "
  ∧ PyStr.take_last 5 period
    = PyStr.rjust 5 "0" (PyStr.drop_last 3 (cell_str (cell ws "P" (key + 15)))).
Proof.
  unfold _xlsx_get_peak_hour. case_match; [|done]. intros <-%(inj Some) H1 H2.
  set (a := PyStr.rjust 5 "0" (PyStr.drop_last 3 (cell_str (cell ws "N" (key + 15))))).
  set (b := PyStr.rjust 5 "0" (PyStr.drop_last 3 (cell_str (cell ws "P" (key + 15))))).
  assert (Ha : String.length a = 5%nat) by (by apply clock_text_length).
  assert (Hb : String.length b = 5%nat) by (by apply clock_text_length).
  split.
  - change 6%nat with (5 + 1)%nat. rewrite <- Ha.
    by rewrite str_take_append.
  - unfold PyStr.take_last. rewrite !str_length_append, Ha, Hb.
    change (String.length " - ") with 3%nat.
    change (5 + (3 + 5) - 5)%nat with (5 + 3)%nat. rewrite <- Ha at 1.
    rewrite str_drop_append. reflexivity.
Qed.

Lemma peak_hour_slices_witness :
  PyStr.take 6 "07:15 - 08:15"
  = PyStr.rjust 5 "0" (PyStr.drop_last 3 (cell_str (cell morning_sheet "N" (32 + 15))))
    +:+ " "
  ∧ PyStr.take_last 5 "07:15 - 08:15"
    = PyStr.rjust 5 "0" (PyStr.drop_last 3 (cell_str (cell morning_sheet "P" (32 + 15)))).
Proof.
  apply (peak_hour_slices morning_sheet 32 "07:15 - 08:15").
  - reflexivity.
  - vm_compute. lia.
  - vm_compute. lia.
Defined.

(** X19. In every spreadsheet record the type is [None]; the date is [None]
    exactly when the cell N15 is false, the weather is [None] exactly
    when the cell V8 is false, and a weather text is stored in lower
    case. *)
Theorem xlsx_document_fields to_datetime (self : WebScraper)
  (wb : gmap string (gmap string cell_value)) (ws : gmap string cell_value)
  (tmc : gmap string pyval) :
  _read_xlsx to_datetime self wb = Some tmc →
  wb !! "Summary" = Some ws →
  tmc !! "type" = Some PNone
  ∧ (tmc !! "date" = Some PNone ↔ truthy (cell_py (cell ws "N" 15)) = false)
  ∧ (tmc !! "weather" = Some PNone ↔ truthy (cell_py (cell ws "V" 8)) = false)
  ∧ (∀ s, cell ws "V" 8 = CStr s → s ≠ EmptyString →
          tmc !! "weather" = Some (PStr (PyStr.lower s))).
Proof.
  intros Hread Hws.
  destruct (xlsx_assembled _ _ _ _ _ Hread Hws) as (st & weather & Hdet & Htmc).
  pose proof Hread as H%catch_some. unfold read_xlsx_body in H. rewrite Hws in H.
  apply bind_ok in H as (st' & Hdet' & H).
  apply bind_ok in H as (weather' & Hweather & H).
  assert (Hdoc : ∀ k, k ∈ document_keys →
            tmc !! k = record_head (_xlsx_get_date ws) weather' (_xlsx_get_type ws)
                         self (set_checks self st') !! k).
  { intros k Hk. apply (collect_periods_other _ (xlsx_block_keys ws) _ _ _ _ _ H).
    intros l. by apply document_keys_not_period. }
  assert (Htype : tmc !! "type" = Some PNone).
  { rewrite Hdoc by (unfold document_keys; rewrite !elem_of_cons; auto).
    unfold record_head, dict_update. simpl. by simplify_map_eq. }
  assert (Hdate : tmc !! "date" = Some (_xlsx_get_date ws)).
  { rewrite Hdoc by (unfold document_keys; rewrite !elem_of_cons; auto).
    unfold record_head, dict_update. simpl. by simplify_map_eq. }
  assert (Hw : tmc !! "weather" = Some weather').
  { rewrite Hdoc by (unfold document_keys; rewrite !elem_of_cons; auto).
    unfold record_head, dict_update. simpl. by simplify_map_eq. }
  split; [done|]. rewrite Hdate, Hw.
  unfold _xlsx_get_date, value_or_none. unfold _xlsx_get_weather in Hweather.
  split_and!.
  - destruct (truthy (cell_py (cell ws "N" 15))) eqn:Ht; split; try done.
    intros [= Heq]. rewrite Heq in Ht. done.
  - destruct (truthy (cell_py (cell ws "V" 8))) eqn:Ht.
    + destruct (cell ws "V" 8); try done. apply Ok_inj in Hweather as <-.
      split; done.
    + apply Ok_inj in Hweather as <-. done.
  - intros s Hs Hne. rewrite Hs in Hweather. simpl in Hweather.
    destruct s; [done|]. simpl in Hweather. by apply Ok_inj in Hweather as <-.
Qed.

Lemma xlsx_document_fields_witness :
  default ∅ (_read_xlsx clock all_periods morning_workbook) !! "type" = Some PNone.
Proof.
  exact (proj1 (xlsx_document_fields clock all_periods morning_workbook
                  morning_sheet _ eq_refl eq_refl)).
Defined.
